(** * Notebook reservation / evaluation lifecycle

    A shallow embedding of the notebook repository
    ([services/repositories/sequelize-notebooks-repository.ts]), of the
    row/entity mappers ([services/database/mappers/notebooks.ts]) and of the
    notebook controller ([NotebookAPI]), together with the properties of the
    reservation and evaluation lifecycle.

    Rows and the object literals handed to the ORM are finite maps from
    column names to values, as the JavaScript objects they are; the database
    is passed explicitly, and every mutating operation returns the new
    database next to its result. *)

From Stdlib Require Import ZArith.
From stdpp Require Import gmap strings list fin_maps pretty.

Open Scope Z_scope.
Open Scope string_scope.
Open Scope list_scope.

(** ** Values *)

(** What a column of a row or a property of an entity can hold.  [VUndefined]
    is what reading a property that is not there gives; [VNull] is both the
    JavaScript [null] and the SQL [NULL]; [VDate t] is a [Date], [t] being its
    time in milliseconds. *)
Inductive Value : Type :=
  | VUndefined
  | VNull
  | VBool (b : bool)
  | VNum (n : Z)
  | VStr (s : string)
  | VDate (t : Z).

#[global] Instance Value_eq_dec : EqDecision Value.
Proof. solve_decision. Defined.

#[global] Instance Value_inhabited : Inhabited Value := populate VUndefined.

(** A row of a table, and equally a (partial) object of column values:
    [r !!! c] is the property read [r[c]]. *)
Abbreviation Row := (gmap string Value).

(** [o?.[c]] on an association that may not be loaded. *)
Definition opt_chain (o : option Row) (c : string) : Value :=
  match o with
  | Some r => r !!! c
  | None => VUndefined
  end.

(** [v ?? d]. *)
Definition nullish_or (v d : Value) : Value :=
  match v with
  | VUndefined | VNull => d
  | _ => v
  end.

(** ** The ORM primitives used by the repository *)

(** The three shapes of condition that the repository's [where] objects use. *)
Inductive Cond : Type :=
  | CEq (v : Value)      (* [col: v]; with [v = null] this is [col IS NULL] *)
  | CIsNull              (* [col: { [Op.is]: null }] *)
  | CNotNull.            (* [col: { [Op.ne]: null }] *)

Abbreviation Where := (list (string * Cond)).

Definition holds (k : Cond) (x : Value) : bool :=
  match k with
  | CEq v => bool_decide (x = v)
  | CIsNull => bool_decide (x = VNull)
  | CNotNull => bool_decide (x ≠ VNull)
  end.

(** A [where] object is the conjunction of its entries. *)
Definition matches (w : Where) (r : Row) : bool :=
  forallb (λ ck, holds ck.2 (r !!! ck.1)) w.

#[global] Arguments matches : simpl never.

(** [Model.update] ignores the properties of [values] that are [undefined]. *)
Definition omit_undefined (values : Row) : Row :=
  filter (λ kv, kv.2 ≠ VUndefined) values.

(** The effect of an update on one matching row: the given columns are
    overwritten, the others are kept. *)
Definition assign (values : Row) (r : Row) : Row :=
  omit_undefined values ∪ r.

(** [Model.update(values, { where })]: the number of affected rows and the
    table afterwards. *)
Definition update (values : Row) (w : Where) (tbl : list Row) : nat * list Row :=
  (length (filter (λ r, matches w r) tbl),
   (λ r, if matches w r then assign values r else r) <$> tbl).

(** [Model.findAll({ where })] and [Model.findOne({ where })]. *)
Definition findAll (w : Where) (tbl : list Row) : list Row :=
  filter (λ r, matches w r) tbl.

Definition findOne (w : Where) (tbl : list Row) : option Row :=
  head (findAll w tbl).

(** [Model.count({ where })]. *)
Definition count (w : Where) (tbl : list Row) : nat :=
  length (findAll w tbl).

(** ** Entities *)

Module NotebookEntity.
Record t : Type := mk {
  idcad : Value;
  idvol : Value;
  idpep : Value;
  studentName : Value;
  studentRegistration : Value;
  studentPrisonUnit : Value;
  evaluatorName : Value;
  evaluatorEmail : Value;
  subject1 : Value;
  subject2 : Value;
  subject3 : Value;
  subject4 : Value;
  subject5 : Value;
  subject6 : Value;
  subject7 : Value;
  subject8 : Value;
  subject9 : Value;
  subject10 : Value;
  relevantContent : Value;
  a1 : Value;
  a2 : Value;
  a3 : Value;
  a4 : Value;
  a5 : Value;
  a6 : Value;
  a7 : Value;
  a8 : Value;
  a9 : Value;
  a10 : Value;
  a11 : Value;
  a12 : Value;
  a13 : Value;
  conclusion : Value;
  archivesExclusion : bool;
  evaluatedDate : Value;
  reservationDate : Value;
  notebookDirectory : Value
}.
End NotebookEntity.

(** The body of an evaluation request.  Its declaration is not among the
    sources; the fields are the ones the mapper reads.  All but
    [archivesExclusion], which the mapper branches on, are only copied. *)
Module EvaluateNotebookEntity.
Record t : Type := mk {
  idvol : Value;
  studentPrisonUnit : Value;
  subject1 : Value;
  subject2 : Value;
  subject3 : Value;
  subject4 : Value;
  subject5 : Value;
  subject6 : Value;
  subject7 : Value;
  subject8 : Value;
  subject9 : Value;
  subject10 : Value;
  relevantContent : Value;
  a1 : Value;
  a2 : Value;
  a3 : Value;
  a4 : Value;
  a5 : Value;
  a6 : Value;
  a7 : Value;
  a8 : Value;
  a9 : Value;
  a10 : Value;
  a11 : Value;
  a12 : Value;
  a13 : Value;
  conclusion : Value;
  archivesExclusion : bool
}.
End EvaluateNotebookEntity.

(** A [Notebook] instance as a query returns it: its columns, and the
    associations the query included. *)
Record Notebook : Type := {
  attrs : Row;
  volunteer : option Row;
  pep : option Row
}.

(** The database. *)
Record Store : Type := {
  Notebooks : list Row;
  Volunteers : list Row;
  Peps : list Row
}.

(** Column names that the repository itself spells out. *)
Definition col_evaluatedAt : string := "Carimbo de data/hora".
Definition col_exclusion : string := "exclusão de arquivos recebidos".

(** ** Mappers (services/database/mappers/notebooks.ts) *)

(** What the code takes from its surroundings and the model leaves open:
    JavaScript's [Number(...)] conversion; the string that a template
    literal puts for a number, [`${n}`] (decimal digits for most integers,
    an exponent form such as [1e+21] for large ones); and the row of the
    [Volunteer], respectively [Pep], table that the [volunteer], respectively
    [pep], association of a notebook row loads (the associations are declared
    with the models, which are not among the sources). *)
Class Runtime : Type := {
  Number : Value → Value;
  number_toString : Z → string;
  include_volunteer : list Row → Row → option Row;
  include_pep : list Row → Row → option Row
}.

Section Mappers.
Context `{!Runtime}.

Definition notebookModelToEntity (notebook : Notebook) : NotebookEntity.t :=
  let row := attrs notebook in
  {| NotebookEntity.idcad := row !!! "idcad";
     NotebookEntity.idvol := row !!! "idvol";
     NotebookEntity.idpep := row !!! "idpep";
     NotebookEntity.studentName := row !!! "nome do(a) aluno(a)";
     NotebookEntity.studentRegistration :=
       Number (row !!! "número de matrícula do(a) aluno(a)");
     NotebookEntity.studentPrisonUnit := row !!! "unidade prisional do(a) aluno(a)";
     NotebookEntity.evaluatorName :=
       nullish_or (opt_chain (volunteer notebook) "nome") (VStr "");
     NotebookEntity.evaluatorEmail := opt_chain (volunteer notebook) "e-mail";
     NotebookEntity.subject1 := row !!! "tema 1";
     NotebookEntity.subject2 := row !!! "tema 2";
     NotebookEntity.subject3 := row !!! "tema 3";
     NotebookEntity.subject4 := row !!! "tema 4";
     NotebookEntity.subject5 := row !!! "tema 5";
     NotebookEntity.subject6 := row !!! "tema 6";
     NotebookEntity.subject7 := row !!! "tema 7";
     NotebookEntity.subject8 := row !!! "tema 8";
     NotebookEntity.subject9 := row !!! "tema 9";
     NotebookEntity.subject10 := row !!! "tema 10";
     NotebookEntity.relevantContent := row !!! "conteúdos relevantes";
     NotebookEntity.a1 := row !!! "a1";
     NotebookEntity.a2 := row !!! "a2";
     NotebookEntity.a3 := row !!! "a3";
     NotebookEntity.a4 := row !!! "a4";
     NotebookEntity.a5 := row !!! "a5";
     NotebookEntity.a6 := row !!! "a6";
     NotebookEntity.a7 := row !!! "a7";
     NotebookEntity.a8 := row !!! "a8";
     NotebookEntity.a9 := row !!! "a9";
     NotebookEntity.a10 := row !!! "a10";
     NotebookEntity.a11 := row !!! "a11";
     NotebookEntity.a12 := row !!! "a12";
     NotebookEntity.a13 := row !!! "a13";
     NotebookEntity.conclusion := row !!! "conclusão do avaliador";
     NotebookEntity.archivesExclusion :=
       bool_decide (row !!! col_exclusion = VStr "SIM");
     NotebookEntity.evaluatedDate := row !!! col_evaluatedAt;
     NotebookEntity.reservationDate := row !!! "datareserva";
     NotebookEntity.notebookDirectory := opt_chain (pep notebook) "directory" |}.
End Mappers.

(** The object literal built for an evaluation, in the order of the source;
    [now] is the reading of the clock taken by [new Date()]. *)
Definition evaluateNotebookEntityToEvaluateNotebookModel_fields
    (now : Z) (notebook : EvaluateNotebookEntity.t) : list (string * Value) :=
  [ ("idvol", EvaluateNotebookEntity.idvol notebook);
    ("unidade prisional do(a) aluno(a)", EvaluateNotebookEntity.studentPrisonUnit notebook);
    ("tema 1", EvaluateNotebookEntity.subject1 notebook);
    ("tema 2", EvaluateNotebookEntity.subject2 notebook);
    ("tema 3", EvaluateNotebookEntity.subject3 notebook);
    ("tema 4", EvaluateNotebookEntity.subject4 notebook);
    ("tema 5", EvaluateNotebookEntity.subject5 notebook);
    ("tema 6", EvaluateNotebookEntity.subject6 notebook);
    ("tema 7", EvaluateNotebookEntity.subject7 notebook);
    ("tema 8", EvaluateNotebookEntity.subject8 notebook);
    ("tema 9", EvaluateNotebookEntity.subject9 notebook);
    ("tema 10", EvaluateNotebookEntity.subject10 notebook);
    ("conteúdos relevantes", EvaluateNotebookEntity.relevantContent notebook);
    ("a1", EvaluateNotebookEntity.a1 notebook);
    ("a2", EvaluateNotebookEntity.a2 notebook);
    ("a3", EvaluateNotebookEntity.a3 notebook);
    ("a4", EvaluateNotebookEntity.a4 notebook);
    ("a5", EvaluateNotebookEntity.a5 notebook);
    ("a6", EvaluateNotebookEntity.a6 notebook);
    ("a7", EvaluateNotebookEntity.a7 notebook);
    ("a8", EvaluateNotebookEntity.a8 notebook);
    ("a9", EvaluateNotebookEntity.a9 notebook);
    ("a10", EvaluateNotebookEntity.a10 notebook);
    ("a11", EvaluateNotebookEntity.a11 notebook);
    ("a12", EvaluateNotebookEntity.a12 notebook);
    ("a13", EvaluateNotebookEntity.a13 notebook);
    ("conclusão do avaliador", EvaluateNotebookEntity.conclusion notebook);
    (col_exclusion,
      if EvaluateNotebookEntity.archivesExclusion notebook
      then VStr "SIM" else VStr "NÃO");
    (col_evaluatedAt, VDate now) ].

Definition evaluateNotebookEntityToEvaluateNotebookModel
    (now : Z) (notebook : EvaluateNotebookEntity.t) : Row :=
  list_to_map (evaluateNotebookEntityToEvaluateNotebookModel_fields now notebook).

(** ** Repository (services/repositories/sequelize-notebooks-repository.ts) *)

(** The database with its notebook table replaced. *)
Definition with_notebooks (s : Store) (tbl : list Row) : Store :=
  {| Notebooks := tbl; Volunteers := Volunteers s; Peps := Peps s |}.

(** The [where] objects of the repository, entry by entry: of
    [saveNotebookEvaluation], of [reserveNotebookForVolunteer], of
    [getReservedNotebooksByIdVol], of [getAvailableNotebooks] and of
    [countEvaluatedNotebooksByIdVol]. *)
Definition where_evaluate (notebookId : Z) : Where :=
  [ ("idcad", CEq (VNum notebookId)); (col_evaluatedAt, CEq VNull) ].

Definition where_reserve (notebookId : Z) : Where :=
  [ ("idcad", CEq (VNum notebookId)); ("datareserva", CEq VNull);
    (col_evaluatedAt, CEq VNull) ].

Definition where_reserved_by (idvol : Z) : Where :=
  [ ("idvol", CEq (VNum idvol)); (col_evaluatedAt, CEq VNull);
    ("datareserva", CEq VNull) ].

Definition where_available : Where :=
  [ ("datareserva", CIsNull); (col_evaluatedAt, CIsNull) ].

Definition where_evaluated_by (idvol : Z) : Where :=
  [ ("idvol", CEq (VNum idvol)); (col_evaluatedAt, CNotNull) ].

Section Repository.
Context `{!Runtime}.

(** The mutations take the database and [now], the reading of the clock that
    [new Date()] takes, and return the database afterwards with their
    result; [None] is [null]. *)
Definition getNotebookById (s : Store) (notebookId : Z) : option NotebookEntity.t :=
  let notebook := findOne [ ("idcad", CEq (VNum notebookId)) ] (Notebooks s) in
  (λ r, notebookModelToEntity
          {| attrs := r;
             volunteer := include_volunteer (Volunteers s) r;
             pep := include_pep (Peps s) r |}) <$> notebook.

Definition saveNotebookEvaluation (s : Store) (now : Z)
    (notebookId : Z) (notebookData : EvaluateNotebookEntity.t)
  : Store * option NotebookEntity.t :=
  let (numUpdates, tbl) :=
    update (evaluateNotebookEntityToEvaluateNotebookModel now notebookData)
           (where_evaluate notebookId) (Notebooks s) in
  let s' := with_notebooks s tbl in
  (s', match numUpdates with
       | O => None
       | S _ => getNotebookById s' notebookId
       end).

Definition reserveNotebookForVolunteer (s : Store) (now : Z)
    (idvol : Z) (notebookId : Z) : Store * option NotebookEntity.t :=
  let (updatedNotebooks, tbl) :=
    update {[ "idvol" := VNum idvol; "datareserva" := VDate now ]}
           (where_reserve notebookId) (Notebooks s) in
  let s' := with_notebooks s tbl in
  (s', match updatedNotebooks with
       | O => None
       | S _ => getNotebookById s' notebookId
       end).

(** The list queries include only the [pep] association. *)
Definition getReservedNotebooksByIdVol (s : Store) (idvol : Z) : list NotebookEntity.t :=
  let notebooks := findAll (where_reserved_by idvol) (Notebooks s) in
  (λ r, notebookModelToEntity
          {| attrs := r; volunteer := None; pep := include_pep (Peps s) r |})
    <$> notebooks.

Definition getAvailableNotebooks (s : Store) : list NotebookEntity.t :=
  let notebooks := findAll where_available (Notebooks s) in
  (λ r, notebookModelToEntity
          {| attrs := r; volunteer := None; pep := include_pep (Peps s) r |})
    <$> notebooks.

Definition countEvaluatedNotebooksByIdVol (s : Store) (idvol : Z) : nat :=
  count (where_evaluated_by idvol) (Notebooks s).

End Repository.

(** ** Controller (NotebookAPI) *)

(** What the controller throws: [new ApiError(status, new XError({ name,
    message }))]. *)
Record ApiError : Type := {
  status : Z;
  name : string;
  message : string
}.

Module NotebookAPI.
Section Controller.
Context `{!Runtime}.

(** The presentation helper and the volunteer repository are collaborators
    whose code is not among the sources. *)
Variable AvailableNotebookRowEntity : Type.
Variable formatAvailableNotebookToTableRow :
  NotebookEntity.t → AvailableNotebookRowEntity.
Variable VolunteerEntity : Type.
Variable getVolunteerById : Store → Z → option VolunteerEntity.

Definition countEvaluatedNotebooksByIdVol (s : Store) (idvol : Z) : nat :=
  countEvaluatedNotebooksByIdVol s idvol.

Definition getAvailableNotebooksForEvalForIdVol (s : Store) (idvol : Z)
  : list AvailableNotebookRowEntity :=
  let availableNotebooks := getAvailableNotebooks s in
  let reservedNotebooks := getReservedNotebooksByIdVol s idvol in
  let volunteerAccessableNotebooks := reservedNotebooks ++ availableNotebooks in
  formatAvailableNotebookToTableRow <$> volunteerAccessableNotebooks.

Definition saveNotebookEvaluation (s : Store) (now : Z)
    (notebookId : Z) (notebookData : EvaluateNotebookEntity.t)
  : Store * (ApiError + NotebookEntity.t) :=
  match getNotebookById s notebookId with
  | None =>
      (s, inl {| status := 404;
                 name := "NOTEBOOK_NOT_FOUND";
                 message := "Notebook with id " +:+ number_toString notebookId +:+ " not found" |})
  | Some _ =>
      let (s', evaluatedNotebook) :=
        saveNotebookEvaluation s now notebookId notebookData in
      match evaluatedNotebook with
      | None =>
          (s', inl {| status := 400;
                      name := "NOTEBOOK_ALREADY_EVALUATED_ERROR";
                      message := "Notebook with id " +:+ number_toString notebookId
                                   +:+ " already evaulated" |})
      | Some evaluated => (s', inr evaluated)
      end
  end.

Definition reserveNotebookForVolunteer (s : Store) (now : Z)
    (idvol : Z) (notebookId : Z)
  : Store * (ApiError + AvailableNotebookRowEntity) :=
  match getVolunteerById s idvol with
  | None =>
      (s, inl {| status := 412;
                 name := "VOLUNTEER_NOT_FOUND";
                 message := "Volunteer with id " +:+ number_toString idvol +:+ " not found" |})
  | Some _ =>
      match getNotebookById s notebookId with
      | None =>
          (s, inl {| status := 404;
                     name := "NOTEBOOK_NOT_FOUND";
                     message := "Notebook with id " +:+ number_toString notebookId
                                  +:+ " not found" |})
      | Some _ =>
          let (s', reservedNotebook) :=
            reserveNotebookForVolunteer s now idvol notebookId in
          match reservedNotebook with
          | None =>
              (s', inl {| status := 400;
                          name := "NOTEBOOK_ALREADY_RESERVED_ERROR";
                          message := "Notebook already reserved or already evaluated" |})
          | Some reserved => (s', inr (formatAvailableNotebookToTableRow reserved))
          end
      end
  end.

End Controller.
End NotebookAPI.

(** ** Sequences of repository operations *)

Inductive Op : Type :=
  | Claim (idvol notebookId : Z)
  | Evaluate (notebookId : Z) (notebookData : EvaluateNotebookEntity.t).

Section Traces.
Context `{!Runtime}.

(** One operation, issued when the clock reads [now]. *)
Definition step (s : Store) (now : Z) (o : Op) : Store :=
  match o with
  | Claim idvol notebookId =>
      (reserveNotebookForVolunteer s now idvol notebookId).1
  | Evaluate notebookId notebookData =>
      (saveNotebookEvaluation s now notebookId notebookData).1
  end.

Definition run (s : Store) (ops : list (Z * Op)) : Store :=
  foldl (λ s' to, step s' to.1 to.2) s ops.

End Traces.

(** ** Predicates on rows and on the database *)

(** The rows a claim of [notebookId] updates. *)
Definition claimable (notebookId : Z) (r : Row) : Prop :=
  r !!! "idcad" = VNum notebookId ∧ r !!! "datareserva" = VNull
  ∧ r !!! col_evaluatedAt = VNull.

(** The rows an evaluation of [notebookId] updates. *)
Definition evaluable (notebookId : Z) (r : Row) : Prop :=
  r !!! "idcad" = VNum notebookId ∧ r !!! col_evaluatedAt = VNull.

#[global] Instance claimable_dec n r : Decision (claimable n r).
Proof. unfold claimable. apply _. Defined.

#[global] Instance evaluable_dec n r : Decision (evaluable n r).
Proof. unfold evaluable. apply _. Defined.

(** The columns an evaluation writes. *)
Definition evaluation_columns : list string :=
  (evaluateNotebookEntityToEvaluateNotebookModel_fields 0
     (EvaluateNotebookEntity.mk VNull VNull VNull VNull VNull VNull VNull VNull
        VNull VNull VNull VNull VNull VNull VNull VNull VNull VNull VNull VNull
        VNull VNull VNull VNull VNull VNull VNull false)).*1.

(** What one operation does to one row. *)
Definition step_row (now : Z) (o : Op) (r : Row) : Row :=
  match o with
  | Claim idvol notebookId =>
      if decide (claimable notebookId r)
      then <[ "idvol" := VNum idvol ]> (<[ "datareserva" := VDate now ]> r)
      else r
  | Evaluate notebookId notebookData =>
      if decide (evaluable notebookId r)
      then assign (evaluateNotebookEntityToEvaluateNotebookModel now notebookData) r
      else r
  end.

(** Notebook ids identify rows. *)
Definition unique_ids (s : Store) : Prop :=
  NoDup ((λ r : Row, r !!! "idcad") <$> Notebooks s).

(** The state in which notebooks are created: unreserved and unevaluated. *)
Definition initial (s : Store) : Prop :=
  Forall (λ r : Row, r !!! "idvol" = VNull ∧ r !!! "datareserva" = VNull
                     ∧ r !!! col_evaluatedAt = VNull)
         (Notebooks s).

(** No available notebook carries a volunteer. *)
Definition available_unassigned (s : Store) : Prop :=
  Forall (λ r : Row, r !!! "datareserva" = VNull → r !!! col_evaluatedAt = VNull →
                     r !!! "idvol" = VNull)
         (Notebooks s).

(** The notebook [notebookId] is evaluated: every row carrying that id has an
    evaluation date. *)
Definition evaluated_notebook (notebookId : Z) (s : Store) : Prop :=
  Forall (λ r : Row, r !!! "idcad" = VNum notebookId → r !!! col_evaluatedAt ≠ VNull)
         (Notebooks s).

(** ** Concrete databases used to evaluate the operations *)

(** [Number] on the values whose conversion is an integer; strings and
    [undefined], which may convert to a fraction or to [NaN], are outside the
    examples and left as they are. *)
Definition number_of_integral (v : Value) : Value :=
  match v with
  | VNull => VNum 0
  | VBool b => VNum (if b then 1 else 0)
  | VDate t => VNum t
  | _ => v
  end.

(** An association through a foreign key: the first row of [target] with
    the notebook's value in column [key]; a null key joins with nothing. *)
Definition joined (key : string) (target : list Row) (r : Row) : option Row :=
  match r !!! key with
  | VUndefined | VNull => None
  | v => head (filter (λ t, t !!! key = v) target)
  end.

(** The decimal digits of an integer, which is what a template literal puts
    for an integer of magnitude below 10^21; the examples use no other. *)
Definition decimal_digits (n : Z) : string := pretty n.

(** The surroundings of the examples: volunteers are joined on [idvol],
    classes on [idpep]. *)
Definition example_runtime : Runtime :=
  {| Number := number_of_integral;
     number_toString := decimal_digits;
     include_volunteer := joined "idvol";
     include_pep := joined "idpep" |}.

(** A notebook row with the lifecycle columns given and some content. *)
Definition notebook_row (idcad : Z) (idvol datareserva evaluatedAt : Value) : Row :=
  list_to_map
    [ ("idcad", VNum idcad);
      ("idvol", idvol);
      ("idpep", VNum 3);
      ("nome do(a) aluno(a)", VStr "Ana");
      ("número de matrícula do(a) aluno(a)", VNum 1234);
      ("unidade prisional do(a) aluno(a)", VStr "U0");
      ("tema 1", VStr "leitura"); ("tema 2", VNull); ("tema 3", VNull);
      ("tema 4", VNull); ("tema 5", VNull); ("tema 6", VNull);
      ("tema 7", VNull); ("tema 8", VNull); ("tema 9", VNull);
      ("tema 10", VNull);
      ("conteúdos relevantes", VNull);
      ("a1", VStr "resposta"); ("a2", VNull); ("a3", VNull); ("a4", VNull);
      ("a5", VNull); ("a6", VNull); ("a7", VNull); ("a8", VNull);
      ("a9", VNull); ("a10", VNull); ("a11", VNull); ("a12", VNull);
      ("a13", VNull);
      ("conclusão do avaliador", VNull);
      (col_exclusion, VNull);
      (col_evaluatedAt, evaluatedAt);
      ("datareserva", datareserva) ].

Definition volunteer_row (idvol : Z) (nome : string) : Row :=
  {[ "idvol" := VNum idvol; "nome" := VStr nome; "e-mail" := VStr "v@example.org" ]}.

Definition example_store (notebooks : list Row) : Store :=
  {| Notebooks := notebooks;
     Volunteers := [ volunteer_row 7 "Bia"; volunteer_row 9 "Caio" ];
     Peps := [ {[ "idpep" := VNum 3; "directory" := VStr "dir-3" ]} ] |}.

(** An evaluation request sent by volunteer [idvol]. *)
Definition example_evaluation (idvol : Z) (exclusion : bool) : EvaluateNotebookEntity.t :=
  {| EvaluateNotebookEntity.idvol := VNum idvol;
     EvaluateNotebookEntity.studentPrisonUnit := VStr "U1";
     EvaluateNotebookEntity.subject1 := VStr "t1";
     EvaluateNotebookEntity.subject2 := VStr "t2";
     EvaluateNotebookEntity.subject3 := VStr "t3";
     EvaluateNotebookEntity.subject4 := VStr "t4";
     EvaluateNotebookEntity.subject5 := VStr "t5";
     EvaluateNotebookEntity.subject6 := VStr "t6";
     EvaluateNotebookEntity.subject7 := VStr "t7";
     EvaluateNotebookEntity.subject8 := VStr "t8";
     EvaluateNotebookEntity.subject9 := VStr "t9";
     EvaluateNotebookEntity.subject10 := VStr "t10";
     EvaluateNotebookEntity.relevantContent := VStr "c";
     EvaluateNotebookEntity.a1 := VStr "r1";
     EvaluateNotebookEntity.a2 := VStr "r2";
     EvaluateNotebookEntity.a3 := VStr "r3";
     EvaluateNotebookEntity.a4 := VStr "r4";
     EvaluateNotebookEntity.a5 := VStr "r5";
     EvaluateNotebookEntity.a6 := VStr "r6";
     EvaluateNotebookEntity.a7 := VStr "r7";
     EvaluateNotebookEntity.a8 := VStr "r8";
     EvaluateNotebookEntity.a9 := VStr "r9";
     EvaluateNotebookEntity.a10 := VStr "r10";
     EvaluateNotebookEntity.a11 := VStr "r11";
     EvaluateNotebookEntity.a12 := VStr "r12";
     EvaluateNotebookEntity.a13 := VStr "r13";
     EvaluateNotebookEntity.conclusion := VStr "Good";
     EvaluateNotebookEntity.archivesExclusion := exclusion |}.

(** Notebook 1 is available, 2 is reserved by volunteer 7, 3 was evaluated
    by volunteer 9. *)
Definition store_mixed : Store :=
  example_store
    [ notebook_row 1 VNull VNull VNull;
      notebook_row 2 (VNum 7) (VDate 50) VNull;
      notebook_row 3 (VNum 9) (VDate 40) (VDate 60) ].

(** The lifecycle columns of a row. *)
Definition lifecycle (r : Row) : Value * Value * Value * Value :=
  (r !!! "idcad", r !!! "idvol", r !!! "datareserva", r !!! col_evaluatedAt).

(** Notebook 1 as it is created. *)
Definition store_new : Store := example_store [ notebook_row 1 VNull VNull VNull ].

(** Notebooks 1 and 2 as they are created. *)
Definition store_pair : Store :=
  example_store [ notebook_row 1 VNull VNull VNull; notebook_row 2 VNull VNull VNull ].

(** A volunteer repository for the examples: the volunteer row with the
    given id. *)
Definition lookup_volunteer (s : Store) (idvol : Z) : option Row :=
  findOne [ ("idvol", CEq (VNum idvol)) ] (Volunteers s).

(** Closes a decidable goal about concrete data by evaluating its decision. *)
Ltac by_evaluation := apply (bool_decide_unpack _); vm_compute; exact I.

(** ** Further predicates on operations and rows *)

(** The notebook an operation is about. *)
Definition op_notebook (o : Op) : Z :=
  match o with
  | Claim _ notebookId => notebookId
  | Evaluate notebookId _ => notebookId
  end.

(** No row can be claimed as notebook [notebookId]. *)
Definition no_claimable (notebookId : Z) (s : Store) : Prop :=
  Forall (λ r : Row, ¬ claimable notebookId r) (Notebooks s).

(** The rows [countEvaluatedNotebooksByIdVol] counts for a volunteer. *)
Definition evaluated_by (idvol : Z) (r : Row) : Prop :=
  r !!! "idvol" = VNum idvol ∧ r !!! col_evaluatedAt ≠ VNull.

(** The rows [getAvailableNotebooks] returns. *)
Definition available (r : Row) : Prop :=
  r !!! "datareserva" = VNull ∧ r !!! col_evaluatedAt = VNull.

(** What a column holds after a field [v] was sent for it: [v], or what it
    held when [v] is [undefined]. *)
Definition written (v old : Value) : Value :=
  if decide (v = VUndefined) then old else v.

(** The rows an operation updates. *)
Definition op_matches (o : Op) (r : Row) : Prop :=
  match o with
  | Claim _ notebookId => claimable notebookId r
  | Evaluate notebookId _ => evaluable notebookId r
  end.

Section Results.
Context `{!Runtime}.

(** What one operation returns. *)
Definition step_result (s : Store) (now : Z) (o : Op) : option NotebookEntity.t :=
  match o with
  | Claim idvol notebookId =>
      (reserveNotebookForVolunteer s now idvol notebookId).2
  | Evaluate notebookId notebookData =>
      (saveNotebookEvaluation s now notebookId notebookData).2
  end.

End Results.

(** ** Controller (UnsecuredVolunteerAPI): login *)

(** JavaScript's truthiness, which the conditions of [login] use. *)
Definition truthy (v : Value) : bool :=
  match v with
  | VUndefined | VNull => false
  | VBool b => b
  | VNum n => bool_decide (n ≠ 0)
  | VStr s => bool_decide (s ≠ "")
  | VDate _ => true
  end.

(** A permission entity; its declaration is not among the sources, and
    [login] reads its [permissions] object only. *)
Record PermissionEntity : Type := {
  permissions : Row
}.

Module UnsecuredVolunteerAPI.
Section Controller.

(** The volunteer repository, the hash check and the signing of the token
    (with the secret key and the expiry that [login] passes) are
    collaborators whose code is not among the sources.  A volunteer with
    its authentication data is the object the repository returns. *)
Variable getVolunteerWithAuthDataByEmail : string → option Row.
Variable getPermissionByAuthName : Value → option PermissionEntity.
Variable checkPlainWithHash : string → Value → bool.
Variable sign : Row → string.

(** [const { bookPermission, certificationPermission, password: _password,
    readPermission, ...volunteer } = volunteerWithAuth]: the rest. *)
Definition login_volunteer (volunteerWithAuth : Row) : Row :=
  delete "bookPermission"
    (delete "certificationPermission"
       (delete "password"
          (delete "readPermission" volunteerWithAuth))).

(** The permission entity [login] looks up, when the volunteer has an
    author permission. *)
Definition login_permissions (volunteerWithAuth : Row) : option PermissionEntity :=
  if truthy (volunteerWithAuth !!! "authorPermission")
  then getPermissionByAuthName (volunteerWithAuth !!! "authorPermission")
  else None.

(** The payload of the token: the object literal, whose spread
    [...permissions?.permissions] comes last and so overrides. *)
Definition login_payload (volunteerWithAuth : Row) : Row :=
  let volunteer := login_volunteer volunteerWithAuth in
  let flag (v : Value) := if truthy v then VBool true else VUndefined in
  from_option permissions ∅ (login_permissions volunteerWithAuth)
  ∪ {[ "email" := volunteer !!! "email";
       "idvol" := volunteer !!! "idvol";
       "bookPermission" := flag (volunteerWithAuth !!! "bookPermission");
       "certificationPermission" :=
         flag (volunteerWithAuth !!! "certificationPermission");
       "readPermission" := flag (volunteerWithAuth !!! "readPermission") ]}.

Definition login (email password : string) : ApiError + (string * Row) :=
  match getVolunteerWithAuthDataByEmail email with
  | Some volunteerWithAuth =>
      if checkPlainWithHash password (volunteerWithAuth !!! "password")
      then
        let token := sign (login_payload volunteerWithAuth) in
        inr (token, login_volunteer volunteerWithAuth)
      else
        inl {| status := 400;
               name := "EMAIL_OR_PASSWORD_WRONG_ERROR";
               message := "Email or Password wrong" |}
  | None =>
      inl {| status := 400;
             name := "EMAIL_OR_PASSWORD_WRONG_ERROR";
             message := "Email or Password wrong" |}
  end.

End Controller.
End UnsecuredVolunteerAPI.

(** A volunteer directory, a hash check and a signing for the examples. *)
Definition example_volunteer_auth : Row :=
  {[ "idvol" := VNum 7; "email" := VStr "bia@example.org"; "nome" := VStr "Bia";
     "password" := VStr "hash-of-secret"; "readPermission" := VBool true;
     "bookPermission" := VNull; "certificationPermission" := VNull;
     "authorPermission" := VNull ]}.

Definition example_directory (email : string) : option Row :=
  if decide (email = "bia@example.org") then Some example_volunteer_auth else None.

Definition example_check (plain : string) (hash : Value) : bool :=
  bool_decide (hash = VStr ("hash-of-" +:+ plain)).

Definition example_sign (payload : Row) : string :=
  match payload !!! "email" with
  | VStr email => "token-for-" +:+ email
  | _ => "token"
  end.

(** * Properties *)

(** ** The ORM primitives *)

Lemma matches_cons c k (w : Where) (r : Row) :
  matches ((c, k) :: w) r = holds k (r !!! c) && matches w r.
Proof. reflexivity. Qed.

Lemma matches_where_id n (r : Row) :
  matches [ ("idcad", CEq (VNum n)) ] r ↔ r !!! "idcad" = VNum n.
Proof.
  rewrite matches_cons. simpl. by rewrite andb_true_r, bool_decide_spec.
Qed.

Lemma matches_where_reserve n (r : Row) :
  matches (where_reserve n) r ↔ claimable n r.
Proof.
  unfold where_reserve, claimable. rewrite !matches_cons. simpl.
  rewrite andb_true_r, !andb_True, !bool_decide_spec. tauto.
Qed.

Lemma matches_where_evaluate n (r : Row) :
  matches (where_evaluate n) r ↔ evaluable n r.
Proof.
  unfold where_evaluate, evaluable. rewrite !matches_cons. simpl.
  rewrite andb_true_r, !andb_True, !bool_decide_spec. tauto.
Qed.

Lemma matches_where_available (r : Row) :
  matches where_available r
  ↔ r !!! "datareserva" = VNull ∧ r !!! col_evaluatedAt = VNull.
Proof.
  unfold where_available. rewrite !matches_cons. simpl.
  rewrite andb_true_r, !andb_True, !bool_decide_spec. tauto.
Qed.

Lemma matches_where_reserved_by idvol (r : Row) :
  matches (where_reserved_by idvol) r
  ↔ r !!! "idvol" = VNum idvol ∧ r !!! col_evaluatedAt = VNull
    ∧ r !!! "datareserva" = VNull.
Proof.
  unfold where_reserved_by. rewrite !matches_cons. simpl.
  rewrite andb_true_r, !andb_True, !bool_decide_spec. tauto.
Qed.

(** No row is affected exactly when no row matches. *)
Lemma update_count_zero values w (tbl : list Row) :
  (update values w tbl).1 = 0%nat ↔ ∀ r, r ∈ tbl → ¬ matches w r.
Proof.
  unfold update. simpl. rewrite length_zero_iff_nil. split.
  - intros Hnil r Hr Hm.
    assert (r ∈ filter (λ r, matches w r) tbl) as Hin by (apply list_elem_of_filter; done).
    rewrite Hnil in Hin. by apply not_elem_of_nil in Hin.
  - intros Hno. induction tbl as [|r tbl IH]; [done|].
    rewrite filter_cons. destruct (decide (matches w r)) as [Hm|Hm].
    + exfalso. apply (Hno r); [left | done].
    + apply IH. intros r' Hr'. apply Hno. by right.
Qed.

Lemma update_count_pos values w (tbl : list Row) :
  (update values w tbl).1 ≠ 0%nat ↔ ∃ r, r ∈ tbl ∧ matches w r.
Proof.
  rewrite update_count_zero. split.
  - intros Hnot.
    destruct (decide (Exists (λ r, matches w r) tbl)) as [He|He].
    + by apply Exists_exists in He.
    + exfalso. apply Hnot. intros r Hr Hm. apply He, Exists_exists. eauto.
  - intros (r & Hr & Hm) Hno. by apply (Hno r).
Qed.

(** The table after an update, row by row. *)
Lemma update_rows values w (P : Row → Prop) `{!∀ r, Decision (P r)} (tbl : list Row) :
  (∀ r, matches w r ↔ P r) →
  (update values w tbl).2 = (λ r, if decide (P r) then assign values r else r) <$> tbl.
Proof.
  intros HP. unfold update. simpl. apply list_fmap_ext. intros i r _.
  destruct (decide (P r)) as [Hp|Hp].
  - apply HP in Hp. by destruct (matches w r).
  - destruct (matches w r) eqn:Hm; [|done].
    exfalso. apply Hp, HP. by rewrite Hm.
Qed.

Lemma update_no_match values w (tbl : list Row) :
  (∀ r, r ∈ tbl → ¬ matches w r) → (update values w tbl).2 = tbl.
Proof.
  intros Hno. unfold update. simpl.
  induction tbl as [|r tbl IH]; [done|].
  rewrite fmap_cons. f_equal.
  - destruct (matches w r) eqn:Hm; [|done].
    exfalso. apply (Hno r); [left | by rewrite Hm].
  - apply IH. intros r' Hr'. apply Hno. by right.
Qed.

Lemma lookup_omit_undefined (values : Row) c :
  omit_undefined values !! c
  = match values !! c with
    | Some VUndefined => None
    | o => o
    end.
Proof.
  unfold omit_undefined. destruct (values !! c) as [v|] eqn:Hv.
  - destruct (decide (v = VUndefined)) as [->|Hne].
    + apply map_lookup_filter_None. right. intros v' Hv' Hp. simpl in Hp. congruence.
    + transitivity (Some v); [|by destruct v].
      apply map_lookup_filter_Some. done.
  - apply map_lookup_filter_None. by left.
Qed.

(** Reading a column of an updated row: the value written, unless none was
    given or the one given is [undefined]. *)
Lemma lookup_assign (values r : Row) c :
  assign values r !! c
  = match values !! c with
    | Some VUndefined | None => r !! c
    | Some v => Some v
    end.
Proof.
  unfold assign. rewrite lookup_union, lookup_omit_undefined.
  destruct (values !! c) as [[]|]; simpl; try done. all: destruct (r !! c); done.
Qed.

Lemma lookup_total_assign (values r : Row) c :
  assign values r !!! c
  = match values !! c with
    | Some VUndefined | None => r !!! c
    | Some v => v
    end.
Proof.
  rewrite !lookup_total_alt, lookup_assign.
  by destruct (values !! c) as [[]|].
Qed.

Lemma findOne_is_Some w (tbl : list Row) :
  is_Some (findOne w tbl) ↔ ∃ r, r ∈ tbl ∧ matches w r.
Proof.
  unfold findOne, findAll. split.
  - intros [r Hr]. exists r.
    assert (r ∈ filter (λ r, matches w r) tbl) as Hin.
    { destruct (filter _ tbl) as [|r0 l]; simplify_eq/=. left. }
    apply list_elem_of_filter in Hin. tauto.
  - intros (r & Hr & Hm).
    assert (r ∈ filter (λ r, matches w r) tbl) as Hin by (apply list_elem_of_filter; done).
    destruct (filter _ tbl); [by apply not_elem_of_nil in Hin | by eexists].
Qed.

(** Among rows with distinct keys, the rows with the key of [r] are [r]
    alone. *)
Lemma filter_unique_key {B} `{EqDecision B} (f : Row → B) (l : list Row) (r : Row) :
  NoDup (f <$> l) → r ∈ l → filter (λ x, f x = f r) l = [r].
Proof.
  induction l as [|x l IH]; intros Hnd Hr.
  { by apply elem_of_nil in Hr. }
  rewrite fmap_cons in Hnd. apply NoDup_cons in Hnd as (Hx & Hnd).
  rewrite filter_cons. apply elem_of_cons in Hr as [->|Hr].
  - rewrite decide_True by done. f_equal.
    destruct (filter (λ y, f y = f x) l) as [|y l'] eqn:Hf; [done|].
    exfalso. assert (y ∈ filter (λ y, f y = f x) l) as Hy by (rewrite Hf; left).
    apply list_elem_of_filter in Hy as (Hy & Hyl).
    apply Hx. rewrite <- Hy. apply list_elem_of_fmap. eauto.
  - rewrite decide_False; [by apply IH|].
    intros Heq. apply Hx. rewrite Heq. apply list_elem_of_fmap. eauto.
Qed.

Lemma findOne_unique n (tbl : list Row) (r : Row) :
  NoDup ((λ r : Row, r !!! "idcad") <$> tbl) →
  r ∈ tbl → r !!! "idcad" = VNum n →
  findOne [ ("idcad", CEq (VNum n)) ] tbl = Some r.
Proof.
  intros Hnd Hr Hid. unfold findOne, findAll.
  rewrite (list_filter_iff _ (λ x : Row, x !!! "idcad" = r !!! "idcad")).
  - by rewrite (filter_unique_key (λ r : Row, r !!! "idcad")).
  - intros x. by rewrite matches_where_id, Hid.
Qed.

Lemma with_notebooks_same (s : Store) : with_notebooks s (Notebooks s) = s.
Proof. by destruct s. Qed.

(** ** The objects written *)

(** A claim writes exactly the two reservation columns. *)
Lemma assign_reserve idvol now (r : Row) :
  assign {[ "idvol" := VNum idvol; "datareserva" := VDate now ]} r
  = <[ "idvol" := VNum idvol ]> (<[ "datareserva" := VDate now ]> r).
Proof.
  apply map_eq. intros c. rewrite lookup_assign.
  destruct (decide (c = "idvol")) as [->|H1].
  { by rewrite !lookup_insert_eq. }
  destruct (decide (c = "datareserva")) as [->|H2].
  { rewrite !(lookup_insert_ne _ "idvol") by done.
    by rewrite lookup_singleton_eq, lookup_insert_eq. }
  rewrite !lookup_insert_ne by done. by rewrite lookup_singleton_ne.
Qed.

Lemma evaluation_fields_columns now data :
  (evaluateNotebookEntityToEvaluateNotebookModel_fields now data).*1
  = evaluation_columns.
Proof. reflexivity. Qed.

Lemma evaluation_columns_NoDup : NoDup evaluation_columns.
Proof. by_evaluation. Qed.

Lemma idcad_not_evaluation_column : "idcad" ∉ evaluation_columns.
Proof. by_evaluation. Qed.

Lemma datareserva_not_evaluation_column : "datareserva" ∉ evaluation_columns.
Proof. by_evaluation. Qed.

Lemma evaluation_model_lookup now data c v :
  (c, v) ∈ evaluateNotebookEntityToEvaluateNotebookModel_fields now data →
  evaluateNotebookEntityToEvaluateNotebookModel now data !! c = Some v.
Proof.
  apply elem_of_list_to_map_1.
  rewrite evaluation_fields_columns. apply evaluation_columns_NoDup.
Qed.

Lemma evaluation_model_lookup_None now data c :
  c ∉ evaluation_columns →
  evaluateNotebookEntityToEvaluateNotebookModel now data !! c = None.
Proof.
  intros Hc. apply not_elem_of_list_to_map_1.
  by rewrite evaluation_fields_columns.
Qed.

(** An evaluation overwrites a column with each field that is not
    [undefined], and keeps every other column. *)
Lemma assign_evaluation_field now data (r : Row) c v :
  (c, v) ∈ evaluateNotebookEntityToEvaluateNotebookModel_fields now data →
  assign (evaluateNotebookEntityToEvaluateNotebookModel now data) r !!! c
  = if decide (v = VUndefined) then r !!! c else v.
Proof.
  intros Hin. rewrite lookup_total_assign, (evaluation_model_lookup _ _ _ _ Hin).
  by destruct v.
Qed.

Lemma assign_evaluation_other now data (r : Row) c :
  c ∉ evaluation_columns →
  assign (evaluateNotebookEntityToEvaluateNotebookModel now data) r !! c = r !! c.
Proof.
  intros Hc. by rewrite lookup_assign, evaluation_model_lookup_None.
Qed.

Lemma assign_evaluation_evaluatedAt now data (r : Row) :
  assign (evaluateNotebookEntityToEvaluateNotebookModel now data) r !!! col_evaluatedAt
  = VDate now.
Proof.
  rewrite (assign_evaluation_field now data r col_evaluatedAt (VDate now)); [done|].
  unfold evaluateNotebookEntityToEvaluateNotebookModel_fields.
  repeat (first [ by left | right ]).
Qed.

Lemma assign_evaluation_idvol now data (r : Row) :
  assign (evaluateNotebookEntityToEvaluateNotebookModel now data) r !!! "idvol"
  = if decide (EvaluateNotebookEntity.idvol data = VUndefined)
    then r !!! "idvol" else EvaluateNotebookEntity.idvol data.
Proof.
  apply assign_evaluation_field.
  unfold evaluateNotebookEntityToEvaluateNotebookModel_fields. left.
Qed.

(** ** What one operation does to one row *)

(** The id of a row is never written. *)
Lemma step_row_idcad now o (r : Row) :
  step_row now o r !!! "idcad" = r !!! "idcad".
Proof.
  destruct o as [idvol n|n data]; unfold step_row; case_decide; try done.
  - rewrite !lookup_total_alt. by rewrite !lookup_insert_ne.
  - rewrite !lookup_total_alt.
    by rewrite (assign_evaluation_other _ _ _ _ idcad_not_evaluation_column).
Qed.

(** An evaluated row is never written. *)
Lemma step_row_evaluated now o (r : Row) :
  r !!! col_evaluatedAt ≠ VNull → step_row now o r = r.
Proof.
  intros Hev. destruct o as [idvol n|n data]; unfold step_row; case_decide as Hc; try done.
  - by destruct Hc as (_ & _ & Hnull).
  - by destruct Hc as (_ & Hnull).
Qed.

(** A row that has a reservation date keeps it; its volunteer changes only
    when an evaluation of that row brings another one. *)
Lemma step_row_reserved now o (r : Row) :
  r !!! "datareserva" ≠ VNull →
  step_row now o r !!! "datareserva" = r !!! "datareserva"
  ∧ (step_row now o r !!! "idvol" = r !!! "idvol"
     ∨ ∃ n data, o = Evaluate n data ∧ r !!! "idcad" = VNum n
         ∧ step_row now o r !!! "idvol" = EvaluateNotebookEntity.idvol data).
Proof.
  intros Hres. destruct o as [idvol n|n data]; unfold step_row; case_decide as Hc.
  - by destruct Hc as (_ & Hnull & _).
  - by split; [|left].
  - split.
    + rewrite !lookup_total_alt.
      by rewrite (assign_evaluation_other _ _ _ _ datareserva_not_evaluation_column).
    + rewrite assign_evaluation_idvol.
      case_decide as Hu; [by left|]. right. exists n, data.
      by destruct Hc as (Hid & _).
  - by split; [|left].
Qed.

(** A row gets its evaluation date from an evaluation that matched it. *)
Lemma step_row_becomes_evaluated now o (r : Row) :
  r !!! col_evaluatedAt = VNull →
  step_row now o r !!! col_evaluatedAt ≠ VNull →
  ∃ n data, o = Evaluate n data ∧ evaluable n r
    ∧ step_row now o r
      = assign (evaluateNotebookEntityToEvaluateNotebookModel now data) r.
Proof.
  intros Hnull Hev. destruct o as [idvol n|n data]; unfold step_row in *;
    case_decide as Hc; try done.
  - exfalso. apply Hev. rewrite <- Hnull.
    rewrite !lookup_total_alt. by rewrite !lookup_insert_ne.
  - by exists n, data.
Qed.

(** An operation leaves no available notebook with a volunteer. *)
Lemma step_row_available_unassigned now o (r : Row) :
  (r !!! "datareserva" = VNull → r !!! col_evaluatedAt = VNull → r !!! "idvol" = VNull) →
  step_row now o r !!! "datareserva" = VNull →
  step_row now o r !!! col_evaluatedAt = VNull →
  step_row now o r !!! "idvol" = VNull.
Proof.
  destruct o as [idvol n|n data]; unfold step_row; case_decide as Hc.
  - intros _ Hres _. exfalso. revert Hres.
    rewrite !lookup_total_alt.
    rewrite (lookup_insert_ne _ "idvol") by done. by rewrite lookup_insert_eq.
  - tauto.
  - intros _ _ Hev. exfalso. by rewrite assign_evaluation_evaluatedAt in Hev.
  - tauto.
Qed.

(** ** The repository *)

Section RepositoryFacts.
Context `{!Runtime}.

Lemma getNotebookById_is_Some s n :
  is_Some (getNotebookById s n)
  ↔ ∃ r : Row, r ∈ Notebooks s ∧ r !!! "idcad" = VNum n.
Proof.
  unfold getNotebookById. rewrite fmap_is_Some, findOne_is_Some.
  by setoid_rewrite matches_where_id.
Qed.

(** When ids identify rows, reading by id gives the row with that id. *)
Lemma getNotebookById_unique s n (r : Row) :
  unique_ids s → r ∈ Notebooks s → r !!! "idcad" = VNum n →
  getNotebookById s n
  = Some (notebookModelToEntity
            {| attrs := r;
               volunteer := include_volunteer (Volunteers s) r;
               pep := include_pep (Peps s) r |}).
Proof.
  intros Huniq Hr Hid. unfold getNotebookById.
  by rewrite (findOne_unique n (Notebooks s) r Huniq Hr Hid).
Qed.

(** The shape both mutations have: one conditional update, then, if it
    affected a row, a read by id. *)
Lemma conditional_update values w (P : Row → Prop) s n :
  (∀ r, matches w r ↔ P r) →
  (∀ r, P r → assign values r !!! "idcad" = VNum n) →
  let s' := with_notebooks s (update values w (Notebooks s)).2 in
  let result :=
    match (update values w (Notebooks s)).1 with
    | O => None
    | S _ => getNotebookById s' n
    end in
  (is_Some result ↔ ∃ r, r ∈ Notebooks s ∧ P r)
  ∧ (is_Some result → result = getNotebookById s' n)
  ∧ ((∀ r, r ∈ Notebooks s → ¬ P r) → s' = s ∧ result = None).
Proof.
  intros HP Hid s' result.
  pose proof (update_count_zero values w (Notebooks s)) as Hzero.
  pose proof (update_count_pos values w (Notebooks s)) as Hpos.
  pose proof (update_no_match values w (Notebooks s)) as Hsame.
  setoid_rewrite HP in Hzero. setoid_rewrite HP in Hpos. setoid_rewrite HP in Hsame.
  assert ((∃ r, r ∈ Notebooks s ∧ P r) → is_Some (getNotebookById s' n)) as Hfound.
  { intros (r & Hr & Hp). apply getNotebookById_is_Some.
    exists (assign values r). split; [|by apply Hid].
    unfold s', update. cbn [snd Notebooks with_notebooks].
    apply list_elem_of_fmap. exists r. split; [|done].
    apply HP in Hp. by destruct (matches w r). }
  subst result. destruct ((update values w (Notebooks s)).1) as [|k] eqn:Hk.
  - split; [|split].
    + split; [by intros [? ?]|]. intros Hex. by apply Hpos in Hex.
    + by intros [? ?].
    + intros Hno. split; [|done]. unfold s'. rewrite Hsame by done.
      apply with_notebooks_same.
  - assert (∃ r, r ∈ Notebooks s ∧ P r) as Hex by (by apply Hpos).
    split; [|split].
    + split; [done|]. intros _. by apply Hfound.
    + done.
    + intros Hno. exfalso. destruct Hex as (r & Hr & Hp). by apply (Hno r).
Qed.

Lemma reserve_unfold s now idvol n :
  reserveNotebookForVolunteer s now idvol n
  = let values := {[ "idvol" := VNum idvol; "datareserva" := VDate now ]} in
    let s' := with_notebooks s (update values (where_reserve n) (Notebooks s)).2 in
    (s', match (update values (where_reserve n) (Notebooks s)).1 with
         | O => None
         | S _ => getNotebookById s' n
         end).
Proof.
  unfold reserveNotebookForVolunteer. by destruct (update _ _ _).
Qed.

Lemma evaluate_unfold s now n data :
  saveNotebookEvaluation s now n data
  = let values := evaluateNotebookEntityToEvaluateNotebookModel now data in
    let s' := with_notebooks s (update values (where_evaluate n) (Notebooks s)).2 in
    (s', match (update values (where_evaluate n) (Notebooks s)).1 with
         | O => None
         | S _ => getNotebookById s' n
         end).
Proof.
  unfold saveNotebookEvaluation. by destruct (update _ _ _).
Qed.

Lemma reserve_notebooks s now idvol n :
  Notebooks (reserveNotebookForVolunteer s now idvol n).1
  = step_row now (Claim idvol n) <$> Notebooks s.
Proof.
  rewrite reserve_unfold. cbn [fst Notebooks with_notebooks].
  rewrite (update_rows _ _ (claimable n)) by apply matches_where_reserve.
  apply list_fmap_ext. intros i r _. unfold step_row. by rewrite assign_reserve.
Qed.

Lemma evaluate_notebooks s now n data :
  Notebooks (saveNotebookEvaluation s now n data).1
  = step_row now (Evaluate n data) <$> Notebooks s.
Proof.
  rewrite evaluate_unfold. cbn [fst Notebooks with_notebooks].
  by rewrite (update_rows _ _ (evaluable n)) by apply matches_where_evaluate.
Qed.

Lemma reserve_idcad idvol now n (r : Row) :
  claimable n r →
  assign {[ "idvol" := VNum idvol; "datareserva" := VDate now ]} r !!! "idcad" = VNum n.
Proof.
  intros (Hid & _). rewrite assign_reserve, <- Hid.
  rewrite !lookup_total_alt. by rewrite !lookup_insert_ne.
Qed.

Lemma evaluate_idcad now data n (r : Row) :
  evaluable n r →
  assign (evaluateNotebookEntityToEvaluateNotebookModel now data) r !!! "idcad" = VNum n.
Proof.
  intros (Hid & _). rewrite <- Hid, !lookup_total_alt.
  by rewrite (assign_evaluation_other _ _ _ _ idcad_not_evaluation_column).
Qed.

Lemma reserve_is_Some s now idvol n :
  is_Some (reserveNotebookForVolunteer s now idvol n).2
  ↔ ∃ r, r ∈ Notebooks s ∧ claimable n r.
Proof.
  rewrite reserve_unfold.
  apply (conditional_update _ _ (claimable n) s n);
    [apply matches_where_reserve | apply reserve_idcad].
Qed.

Lemma evaluate_is_Some s now n data :
  is_Some (saveNotebookEvaluation s now n data).2
  ↔ ∃ r, r ∈ Notebooks s ∧ evaluable n r.
Proof.
  rewrite evaluate_unfold.
  apply (conditional_update _ _ (evaluable n) s n);
    [apply matches_where_evaluate | apply evaluate_idcad].
Qed.

(** A successful mutation returns the notebook read again by id. *)
Lemma reserve_refreshed s now idvol n :
  is_Some (reserveNotebookForVolunteer s now idvol n).2 →
  (reserveNotebookForVolunteer s now idvol n).2
  = getNotebookById (reserveNotebookForVolunteer s now idvol n).1 n.
Proof.
  rewrite reserve_unfold.
  apply (conditional_update _ _ (claimable n) s n);
    [apply matches_where_reserve | apply reserve_idcad].
Qed.

Lemma evaluate_refreshed s now n data :
  is_Some (saveNotebookEvaluation s now n data).2 →
  (saveNotebookEvaluation s now n data).2
  = getNotebookById (saveNotebookEvaluation s now n data).1 n.
Proof.
  rewrite evaluate_unfold.
  apply (conditional_update _ _ (evaluable n) s n);
    [apply matches_where_evaluate | apply evaluate_idcad].
Qed.

(** A mutation that matches no row returns [null] and writes nothing. *)
Lemma reserve_rejected s now idvol n :
  (∀ r, r ∈ Notebooks s → ¬ claimable n r) →
  reserveNotebookForVolunteer s now idvol n = (s, None).
Proof.
  intros Hno. rewrite reserve_unfold.
  destruct (conditional_update {[ "idvol" := VNum idvol; "datareserva" := VDate now ]}
              (where_reserve n) (claimable n) s n)
    as (_ & _ & Hrej); [apply matches_where_reserve | apply reserve_idcad |].
  destruct (Hrej Hno) as [Hs Hr]. cbv zeta. by rewrite Hr, Hs.
Qed.

Lemma evaluate_rejected s now n data :
  (∀ r, r ∈ Notebooks s → ¬ evaluable n r) →
  saveNotebookEvaluation s now n data = (s, None).
Proof.
  intros Hno. rewrite evaluate_unfold.
  destruct (conditional_update (evaluateNotebookEntityToEvaluateNotebookModel now data)
              (where_evaluate n) (evaluable n) s n)
    as (_ & _ & Hrej); [apply matches_where_evaluate | apply evaluate_idcad |].
  destruct (Hrej Hno) as [Hs Hr]. cbv zeta. by rewrite Hr, Hs.
Qed.

Lemma reserve_tables s now idvol n :
  Volunteers (reserveNotebookForVolunteer s now idvol n).1 = Volunteers s
  ∧ Peps (reserveNotebookForVolunteer s now idvol n).1 = Peps s.
Proof. by rewrite reserve_unfold. Qed.

Lemma evaluate_tables s now n data :
  Volunteers (saveNotebookEvaluation s now n data).1 = Volunteers s
  ∧ Peps (saveNotebookEvaluation s now n data).1 = Peps s.
Proof. by rewrite evaluate_unfold. Qed.

(** One operation on the database is [step_row] on every row. *)
Lemma step_notebooks s now o :
  Notebooks (step s now o) = step_row now o <$> Notebooks s.
Proof.
  destruct o as [idvol n|n data]; unfold step.
  - apply reserve_notebooks.
  - apply evaluate_notebooks.
Qed.

Lemma step_tables s now o :
  Volunteers (step s now o) = Volunteers s
  ∧ Peps (step s now o) = Peps s.
Proof.
  destruct o as [idvol n|n data]; unfold step.
  - apply reserve_tables.
  - apply evaluate_tables.
Qed.

Lemma step_lookup s now o i :
  Notebooks (step s now o) !! i = step_row now o <$> Notebooks s !! i.
Proof. rewrite step_notebooks. apply list_lookup_fmap. Qed.

Lemma step_ids s now o :
  (λ r : Row, r !!! "idcad") <$> Notebooks (step s now o)
  = (λ r : Row, r !!! "idcad") <$> Notebooks s.
Proof.
  rewrite step_notebooks, <- list_fmap_compose.
  apply list_fmap_ext. intros i r _. apply step_row_idcad.
Qed.

Lemma step_unique_ids s now o :
  unique_ids s → unique_ids (step s now o).
Proof. unfold unique_ids. by rewrite step_ids. Qed.

(** When ids identify rows, the notebook a successful operation returns is
    the row it wrote. *)
Lemma step_refreshed s now o n (r : Row) :
  unique_ids s → r ∈ Notebooks s → r !!! "idcad" = VNum n →
  getNotebookById (step s now o) n
  = Some (notebookModelToEntity
            {| attrs := step_row now o r;
               volunteer := include_volunteer (Volunteers s) (step_row now o r);
               pep := include_pep (Peps s) (step_row now o r) |}).
Proof.
  intros Huniq Hr Hid.
  destruct (step_tables s now o) as [<- <-].
  apply getNotebookById_unique.
  - by apply step_unique_ids.
  - rewrite step_notebooks. apply list_elem_of_fmap. eauto.
  - by rewrite step_row_idcad.
Qed.

(** C1.  [reserveNotebookForVolunteer] returns a notebook exactly when some
    row has the given id and neither a reservation date nor an evaluation
    date.  The rows with that id and both dates null get [idvol] and
    [datareserva] set, to the volunteer and to the current time; nothing else
    is written, in that table or another.  On success the result is the
    notebook read again by id, which, ids identifying rows, is the row just
    written; when no row matches the result is [null] and the database is
    the one before. *)
Theorem reserveNotebookForVolunteer_spec s now idvol notebookId :
  let reserved (r : Row) : Row :=
    <[ "idvol" := VNum idvol ]> (<[ "datareserva" := VDate now ]> r) in
  let (s', result) := reserveNotebookForVolunteer s now idvol notebookId in
  (is_Some result ↔ ∃ r, r ∈ Notebooks s ∧ claimable notebookId r)
  ∧ Notebooks s'
    = (λ r, if decide (claimable notebookId r) then reserved r else r) <$> Notebooks s
  ∧ Volunteers s' = Volunteers s
  ∧ Peps s' = Peps s
  ∧ (is_Some result → result = getNotebookById s' notebookId)
  ∧ (unique_ids s → ∀ r, r ∈ Notebooks s → claimable notebookId r →
     result = Some (notebookModelToEntity
                      {| attrs := reserved r;
                         volunteer := include_volunteer (Volunteers s) (reserved r);
                         pep := include_pep (Peps s) (reserved r) |}))
  ∧ (result = None → s' = s).
Proof.
  intros reserved.
  pose proof (reserve_is_Some s now idvol notebookId) as Hiff.
  pose proof (reserve_notebooks s now idvol notebookId) as Hnb.
  pose proof (reserve_tables s now idvol notebookId) as [Hvol Hpep].
  pose proof (reserve_refreshed s now idvol notebookId) as Hfresh.
  pose proof (reserve_rejected s now idvol notebookId) as Hrej.
  pose proof (λ r, step_refreshed s now (Claim idvol notebookId) notebookId r) as Hrow.
  unfold step in Hrow.
  destruct (reserveNotebookForVolunteer s now idvol notebookId) as [s' result].
  cbn [fst snd] in *.
  split; [done|]. split; [done|]. split; [done|]. split; [done|]. split; [done|]. split.
  - intros Huniq r Hr Hc. rewrite Hfresh by (apply Hiff; eauto).
    rewrite (Hrow r Huniq Hr) by apply Hc.
    unfold step_row. by rewrite decide_True.
  - intros ->. destruct (decide (Exists (claimable notebookId) (Notebooks s))) as [He|He].
    + apply Exists_exists, Hiff in He. by destruct He.
    + assert ((s', None) = (s, @None NotebookEntity.t)) as Heq; [|congruence].
      apply Hrej. intros r Hr Hc. apply He, Exists_exists. eauto.
Qed.

(** C2.  [saveNotebookEvaluation] returns a notebook exactly when some row
    has the given id and no evaluation date.  The rows with that id and a
    null evaluation date are overwritten with the evaluation object: the
    evaluation date becomes the current time, the exclusion column becomes
    ['SIM'] or ['NÃO'] after the request's flag, each of the 27 other fields
    of the request goes to its column unless it is [undefined], and every
    other column is kept; nothing else is written.  On success the result
    is the notebook read again by id, which, ids identifying rows, is the
    row just written; when no row matches the result is [null] and the
    database is the one before. *)
Theorem saveNotebookEvaluation_spec s now notebookId notebookData :
  let evaluated (r : Row) : Row :=
    assign (evaluateNotebookEntityToEvaluateNotebookModel now notebookData) r in
  let (s', result) := saveNotebookEvaluation s now notebookId notebookData in
  (is_Some result ↔ ∃ r, r ∈ Notebooks s ∧ evaluable notebookId r)
  ∧ Notebooks s'
    = (λ r, if decide (evaluable notebookId r) then evaluated r else r) <$> Notebooks s
  ∧ (∀ r : Row,
       evaluated r !!! "Carimbo de data/hora" = VDate now
       ∧ evaluated r !!! "exclusão de arquivos recebidos"
         = VStr (if EvaluateNotebookEntity.archivesExclusion notebookData
                 then "SIM" else "NÃO")
       ∧ evaluated r !!! "idvol"
         = written (EvaluateNotebookEntity.idvol notebookData) (r !!! "idvol")
       ∧ evaluated r !!! "unidade prisional do(a) aluno(a)"
         = written (EvaluateNotebookEntity.studentPrisonUnit notebookData)
             (r !!! "unidade prisional do(a) aluno(a)")
       ∧ evaluated r !!! "tema 1"
         = written (EvaluateNotebookEntity.subject1 notebookData) (r !!! "tema 1")
       ∧ evaluated r !!! "tema 2"
         = written (EvaluateNotebookEntity.subject2 notebookData) (r !!! "tema 2")
       ∧ evaluated r !!! "tema 3"
         = written (EvaluateNotebookEntity.subject3 notebookData) (r !!! "tema 3")
       ∧ evaluated r !!! "tema 4"
         = written (EvaluateNotebookEntity.subject4 notebookData) (r !!! "tema 4")
       ∧ evaluated r !!! "tema 5"
         = written (EvaluateNotebookEntity.subject5 notebookData) (r !!! "tema 5")
       ∧ evaluated r !!! "tema 6"
         = written (EvaluateNotebookEntity.subject6 notebookData) (r !!! "tema 6")
       ∧ evaluated r !!! "tema 7"
         = written (EvaluateNotebookEntity.subject7 notebookData) (r !!! "tema 7")
       ∧ evaluated r !!! "tema 8"
         = written (EvaluateNotebookEntity.subject8 notebookData) (r !!! "tema 8")
       ∧ evaluated r !!! "tema 9"
         = written (EvaluateNotebookEntity.subject9 notebookData) (r !!! "tema 9")
       ∧ evaluated r !!! "tema 10"
         = written (EvaluateNotebookEntity.subject10 notebookData) (r !!! "tema 10")
       ∧ evaluated r !!! "conteúdos relevantes"
         = written (EvaluateNotebookEntity.relevantContent notebookData)
             (r !!! "conteúdos relevantes")
       ∧ evaluated r !!! "a1"
         = written (EvaluateNotebookEntity.a1 notebookData) (r !!! "a1")
       ∧ evaluated r !!! "a2"
         = written (EvaluateNotebookEntity.a2 notebookData) (r !!! "a2")
       ∧ evaluated r !!! "a3"
         = written (EvaluateNotebookEntity.a3 notebookData) (r !!! "a3")
       ∧ evaluated r !!! "a4"
         = written (EvaluateNotebookEntity.a4 notebookData) (r !!! "a4")
       ∧ evaluated r !!! "a5"
         = written (EvaluateNotebookEntity.a5 notebookData) (r !!! "a5")
       ∧ evaluated r !!! "a6"
         = written (EvaluateNotebookEntity.a6 notebookData) (r !!! "a6")
       ∧ evaluated r !!! "a7"
         = written (EvaluateNotebookEntity.a7 notebookData) (r !!! "a7")
       ∧ evaluated r !!! "a8"
         = written (EvaluateNotebookEntity.a8 notebookData) (r !!! "a8")
       ∧ evaluated r !!! "a9"
         = written (EvaluateNotebookEntity.a9 notebookData) (r !!! "a9")
       ∧ evaluated r !!! "a10"
         = written (EvaluateNotebookEntity.a10 notebookData) (r !!! "a10")
       ∧ evaluated r !!! "a11"
         = written (EvaluateNotebookEntity.a11 notebookData) (r !!! "a11")
       ∧ evaluated r !!! "a12"
         = written (EvaluateNotebookEntity.a12 notebookData) (r !!! "a12")
       ∧ evaluated r !!! "a13"
         = written (EvaluateNotebookEntity.a13 notebookData) (r !!! "a13")
       ∧ evaluated r !!! "conclusão do avaliador"
         = written (EvaluateNotebookEntity.conclusion notebookData)
             (r !!! "conclusão do avaliador"))
  ∧ (∀ (r : Row) c,
       c ∉ [
        "idvol"; "unidade prisional do(a) aluno(a)"; "tema 1"; "tema 2"; "tema 3";
        "tema 4"; "tema 5"; "tema 6"; "tema 7"; "tema 8"; "tema 9"; "tema 10";
        "conteúdos relevantes"; "a1"; "a2"; "a3"; "a4"; "a5"; "a6"; "a7"; "a8";
        "a9"; "a10"; "a11"; "a12"; "a13"; "conclusão do avaliador";
        "exclusão de arquivos recebidos"; "Carimbo de data/hora" ] →
       evaluated r !! c = r !! c)
  ∧ Volunteers s' = Volunteers s
  ∧ Peps s' = Peps s
  ∧ (is_Some result → result = getNotebookById s' notebookId)
  ∧ (unique_ids s → ∀ r, r ∈ Notebooks s → evaluable notebookId r →
     result = Some (notebookModelToEntity
                      {| attrs := evaluated r;
                         volunteer := include_volunteer (Volunteers s) (evaluated r);
                         pep := include_pep (Peps s) (evaluated r) |}))
  ∧ (result = None → s' = s).
Proof.
  intros evaluated.
  pose proof (evaluate_is_Some s now notebookId notebookData) as Hiff.
  pose proof (evaluate_notebooks s now notebookId notebookData) as Hnb.
  pose proof (evaluate_tables s now notebookId notebookData) as [Hvol Hpep].
  pose proof (evaluate_refreshed s now notebookId notebookData) as Hfresh.
  pose proof (evaluate_rejected s now notebookId notebookData) as Hrej.
  pose proof (λ r, step_refreshed s now (Evaluate notebookId notebookData) notebookId r)
    as Hrow.
  unfold step in Hrow.
  destruct (saveNotebookEvaluation s now notebookId notebookData) as [s' result].
  cbn [fst snd] in *.
  split; [done|]. split; [done|]. split; [|split].
  - intros r. subst evaluated. cbv beta. unfold written.
    split; [apply assign_evaluation_evaluatedAt|]. split.
    { etransitivity.
      - apply (assign_evaluation_field now notebookData r col_exclusion
                 (if EvaluateNotebookEntity.archivesExclusion notebookData
                  then VStr "SIM" else VStr "NÃO")).
        unfold evaluateNotebookEntityToEvaluateNotebookModel_fields.
        repeat (first [ by left | right ]).
      - by destruct (EvaluateNotebookEntity.archivesExclusion notebookData). }
    repeat split;
      (apply assign_evaluation_field;
       unfold evaluateNotebookEntityToEvaluateNotebookModel_fields;
       repeat (first [ by left | right ])).
  - intros r c Hc. apply assign_evaluation_other. exact Hc.
  - split; [done|]. split; [done|]. split; [done|]. split.
    + intros Huniq r Hr Hc. rewrite Hfresh by (apply Hiff; eauto).
      rewrite (Hrow r Huniq Hr) by apply Hc.
      unfold step_row. by rewrite decide_True.
    + intros ->.
      destruct (decide (Exists (evaluable notebookId) (Notebooks s))) as [He|He].
      * apply Exists_exists, Hiff in He. by destruct He.
      * assert ((s', None) = (s, @None NotebookEntity.t)) as Heq; [|congruence].
        apply Hrej. intros r Hr Hc. apply He, Exists_exists. eauto.
Qed.

End RepositoryFacts.

(** ** The list queries and the mappers *)

Section Listings.
Context `{!Runtime}.

Lemma elem_of_getAvailableNotebooks s e :
  e ∈ getAvailableNotebooks s
  ↔ ∃ r : Row, r ∈ Notebooks s
      ∧ r !!! "datareserva" = VNull ∧ r !!! col_evaluatedAt = VNull
      ∧ e = notebookModelToEntity
              {| attrs := r; volunteer := None; pep := include_pep (Peps s) r |}.
Proof.
  unfold getAvailableNotebooks, findAll. rewrite list_elem_of_fmap.
  setoid_rewrite list_elem_of_filter. setoid_rewrite matches_where_available.
  split.
  - intros (r & -> & (Hres & Hev) & Hr). by exists r.
  - intros (r & Hr & Hres & Hev & ->). by exists r.
Qed.

Lemma elem_of_getReservedNotebooksByIdVol s idvol e :
  e ∈ getReservedNotebooksByIdVol s idvol
  ↔ ∃ r : Row, r ∈ Notebooks s
      ∧ r !!! "idvol" = VNum idvol ∧ r !!! col_evaluatedAt = VNull
      ∧ r !!! "datareserva" = VNull
      ∧ e = notebookModelToEntity
              {| attrs := r; volunteer := None; pep := include_pep (Peps s) r |}.
Proof.
  unfold getReservedNotebooksByIdVol, findAll. rewrite list_elem_of_fmap.
  setoid_rewrite list_elem_of_filter. setoid_rewrite matches_where_reserved_by.
  split.
  - intros (r & -> & (Hvol & Hev & Hres) & Hr). by exists r.
  - intros (r & Hr & Hvol & Hev & Hres & ->). by exists r.
Qed.

(** C7.  Every notebook that [getAvailableNotebooks] returns has a null
    reservation date and a null evaluation date, and every notebook that
    [getReservedNotebooksByIdVol] returns for a volunteer carries that
    volunteer's id. *)
Theorem listings_sound s idvol :
  Forall (λ e, NotebookEntity.reservationDate e = VNull
               ∧ NotebookEntity.evaluatedDate e = VNull)
         (getAvailableNotebooks s)
  ∧ Forall (λ e, NotebookEntity.idvol e = VNum idvol)
           (getReservedNotebooksByIdVol s idvol).
Proof.
  split; apply Forall_forall; intros e He.
  - apply elem_of_getAvailableNotebooks in He as (r & _ & Hres & Hev & ->). done.
  - apply elem_of_getReservedNotebooksByIdVol in He as (r & _ & Hvol & _ & _ & ->). done.
Qed.

(** What [getReservedNotebooksByIdVol] returns has no reservation date, so a
    notebook that was claimed is never in it. *)
Lemma getReservedNotebooksByIdVol_unreserved s idvol :
  Forall (λ e, NotebookEntity.reservationDate e = VNull)
         (getReservedNotebooksByIdVol s idvol).
Proof.
  apply Forall_forall; intros e He.
  apply elem_of_getReservedNotebooksByIdVol in He as (r & _ & _ & _ & Hres & ->). done.
Qed.

(** When no available notebook carries a volunteer,
    [getReservedNotebooksByIdVol] returns nothing. *)
Lemma getReservedNotebooksByIdVol_nil s idvol :
  available_unassigned s → getReservedNotebooksByIdVol s idvol = [].
Proof.
  intros Hinv.
  destruct (getReservedNotebooksByIdVol s idvol) as [|e l] eqn:Hl; [done|].
  exfalso.
  assert (e ∈ getReservedNotebooksByIdVol s idvol) as He by (rewrite Hl; left).
  apply elem_of_getReservedNotebooksByIdVol in He as (r & Hr & Hvol & Hev & Hres & _).
  unfold available_unassigned in Hinv. rewrite Forall_forall in Hinv.
  specialize (Hinv r Hr Hres Hev). congruence.
Qed.

Lemma getAvailableNotebooks_ids s :
  NotebookEntity.idcad <$> getAvailableNotebooks s
  = (λ r : Row, r !!! "idcad") <$> findAll where_available (Notebooks s).
Proof.
  unfold getAvailableNotebooks. by rewrite <- list_fmap_compose.
Qed.

(** C10.  The exclusion flag goes to storage as ['SIM'] when it is true and
    as ['NÃO'] otherwise; a row reads back as [true] exactly when the stored
    string is ['SIM']; so a row read after an evaluation was written to it
    gives the flag that was submitted. *)
Theorem archivesExclusion_roundtrip now (e : EvaluateNotebookEntity.t) :
  evaluateNotebookEntityToEvaluateNotebookModel now e !! col_exclusion
  = Some (VStr (if EvaluateNotebookEntity.archivesExclusion e then "SIM" else "NÃO"))
  ∧ (∀ notebook : Notebook,
       NotebookEntity.archivesExclusion (notebookModelToEntity notebook) = true
       ↔ attrs notebook !!! col_exclusion = VStr "SIM")
  ∧ (∀ (r : Row) vol pp,
       NotebookEntity.archivesExclusion
         (notebookModelToEntity
            {| attrs := assign (evaluateNotebookEntityToEvaluateNotebookModel now e) r;
               volunteer := vol; pep := pp |})
       = EvaluateNotebookEntity.archivesExclusion e).
Proof.
  assert (evaluateNotebookEntityToEvaluateNotebookModel now e !! col_exclusion
          = Some (VStr (if EvaluateNotebookEntity.archivesExclusion e
                        then "SIM" else "NÃO"))) as Hmodel.
  { apply evaluation_model_lookup.
    unfold evaluateNotebookEntityToEvaluateNotebookModel_fields.
    destruct (EvaluateNotebookEntity.archivesExclusion e);
      repeat (first [ by left | right ]). }
  split; [done|]. split.
  - intros notebook. cbn [notebookModelToEntity NotebookEntity.archivesExclusion].
    by rewrite bool_decide_eq_true.
  - intros r vol pp. cbn [notebookModelToEntity NotebookEntity.archivesExclusion attrs].
    rewrite lookup_total_assign, Hmodel.
    by destruct (EvaluateNotebookEntity.archivesExclusion e).
Qed.

End Listings.

(** ** Sequences of operations *)

Section Lifecycle.
Context `{!Runtime}.

Lemma run_snoc s ops now o :
  run s (ops ++ [(now, o)]) = step (run s ops) now o.
Proof. unfold run. by rewrite foldl_app. Qed.

Lemma run_cons s ops now o :
  run s ((now, o) :: ops) = run (step s now o) ops.
Proof. reflexivity. Qed.

Lemma run_unique_ids s ops :
  unique_ids s → unique_ids (run s ops).
Proof.
  revert s. induction ops as [|[now o] ops IH]; intros s Huniq; [done|].
  rewrite run_cons. by apply IH, step_unique_ids.
Qed.

Lemma initial_available_unassigned s : initial s → available_unassigned s.
Proof.
  unfold initial, available_unassigned. intros Hinit.
  eapply Forall_impl; [exact Hinit|]. by intros r (Hvol & _ & _) _ _.
Qed.

Lemma step_available_unassigned s now o :
  available_unassigned s → available_unassigned (step s now o).
Proof.
  unfold available_unassigned. rewrite step_notebooks, Forall_fmap. intros Hinv.
  eapply Forall_impl; [exact Hinv|].
  intros r Hr. simpl. by apply step_row_available_unassigned.
Qed.

(** In every state reached from the one notebooks are created in, no
    available notebook carries a volunteer. *)
Lemma run_available_unassigned s ops :
  initial s → available_unassigned (run s ops).
Proof.
  intros Hinit. apply initial_available_unassigned in Hinit.
  revert s Hinit. induction ops as [|[now o] ops IH]; intros s Hinv; [done|].
  rewrite run_cons. by apply IH, step_available_unassigned.
Qed.

Lemma evaluated_notebook_no_match n s :
  evaluated_notebook n s →
  (∀ r, r ∈ Notebooks s → ¬ claimable n r) ∧ (∀ r, r ∈ Notebooks s → ¬ evaluable n r).
Proof.
  unfold evaluated_notebook. rewrite Forall_forall. intros Hev. split.
  - intros r Hr (Hid & _ & Hnull). by apply (Hev r).
  - intros r Hr (Hid & Hnull). by apply (Hev r).
Qed.

(** With ids identifying rows, a notebook is evaluated when its row is. *)
Lemma evaluated_row_notebook s n (r : Row) :
  unique_ids s → r ∈ Notebooks s → r !!! "idcad" = VNum n →
  r !!! col_evaluatedAt ≠ VNull → evaluated_notebook n s.
Proof.
  intros Huniq Hr Hid Hev. apply Forall_forall. intros r' Hr' Hid'.
  assert (r' ∈ filter (λ x : Row, x !!! "idcad" = r !!! "idcad") (Notebooks s)) as Hin.
  { apply list_elem_of_filter. split; [congruence|done]. }
  rewrite (filter_unique_key (λ r : Row, r !!! "idcad") _ r Huniq Hr) in Hin.
  by apply list_elem_of_singleton in Hin as ->.
Qed.

(** C5.  When the notebook [notebookId] is evaluated, a claim of it and an
    evaluation of it both return [null] and leave the database, hence every
    column of the notebook, as it was. *)
Theorem evaluated_is_terminal s now notebookId idvol notebookData :
  evaluated_notebook notebookId s →
  reserveNotebookForVolunteer s now idvol notebookId = (s, None)
  ∧ saveNotebookEvaluation s now notebookId notebookData = (s, None).
Proof.
  intros [Hclaim Heval]%evaluated_notebook_no_match. split.
  - by apply reserve_rejected.
  - by apply evaluate_rejected.
Qed.

(** C3, as the code has it.  Along any sequence of claims and evaluations a
    row that has a reservation date keeps that date, and no claim changes its
    volunteer: afterwards the volunteer is the one before or the [idvol]
    carried by an evaluation of that notebook in the sequence.  For an
    evaluation does write the volunteer: after one that matches the row, the
    volunteer is the [idvol] of the request, and the one before only if the
    request has none. *)
Theorem reservation_after_run s ops i (r : Row) :
  Notebooks s !! i = Some r →
  r !!! "datareserva" ≠ VNull →
  (∃ r' : Row, Notebooks (run s ops) !! i = Some r'
     ∧ r' !!! "datareserva" = r !!! "datareserva"
     ∧ (r' !!! "idvol" = r !!! "idvol"
        ∨ ∃ now n data, (now, Evaluate n data) ∈ ops
            ∧ r !!! "idcad" = VNum n
            ∧ r' !!! "idvol" = EvaluateNotebookEntity.idvol data))
  ∧ (∀ now n data, evaluable n r →
     ∃ r' : Row, Notebooks (saveNotebookEvaluation s now n data).1 !! i = Some r'
       ∧ r' !!! "datareserva" = r !!! "datareserva"
       ∧ r' !!! "idvol"
         = if decide (EvaluateNotebookEntity.idvol data = VUndefined)
           then r !!! "idvol" else EvaluateNotebookEntity.idvol data).
Proof.
  intros Hr Hres. split.
  - revert s r Hr Hres. induction ops as [|[now o] ops IH]; intros s r Hr Hres.
    { exists r. by repeat split; [|left]. }
    destruct (step_row_reserved now o r Hres) as (Hdate & Hvol).
    destruct (IH (step s now o) (step_row now o r)) as (r' & Hr' & Hdate' & Hvol').
    { by rewrite step_lookup, Hr. }
    { by rewrite Hdate. }
    exists r'. rewrite run_cons. split; [done|]. split; [congruence|].
    destruct Hvol' as [Hsame|(now' & n & data & Hin & Hid & Hset)].
    + destruct Hvol as [Hsame0|(n & data & -> & Hid & Hset)].
      * left. congruence.
      * right. exists now, n, data. split; [left|]. split; [done|congruence].
    + right. exists now', n, data. split; [by right|].
      split; [by rewrite <- Hid, step_row_idcad|done].
  - intros now n data Hc.
    exists (assign (evaluateNotebookEntityToEvaluateNotebookModel now data) r).
    split; [|split].
    + rewrite evaluate_notebooks, list_lookup_fmap, Hr. simpl.
      by rewrite decide_True.
    + rewrite !lookup_total_alt.
      by rewrite (assign_evaluation_other _ _ _ _ datareserva_not_evaluation_column).
    + apply assign_evaluation_idvol.
Qed.

(** C4, as the code has it.  From a state in which every notebook is
    unreserved and unevaluated, a row with an evaluation date got it from one
    evaluation of the sequence that found the row unevaluated, and the row is
    still as that evaluation left it: its evaluation date is the time of that
    evaluation, its volunteer is the [idvol] of that request (unless the
    request has none), and its reservation date is the one it had then, which
    may be null. *)
Theorem evaluated_origin s ops i (r : Row) :
  initial s →
  Notebooks (run s ops) !! i = Some r →
  r !!! col_evaluatedAt ≠ VNull →
  ∃ ops1 now n data ops2 (r0 : Row),
    ops = ops1 ++ (now, Evaluate n data) :: ops2
    ∧ Notebooks (run s ops1) !! i = Some r0
    ∧ evaluable n r0
    ∧ r = assign (evaluateNotebookEntityToEvaluateNotebookModel now data) r0
    ∧ r !!! col_evaluatedAt = VDate now
    ∧ r !!! "datareserva" = r0 !!! "datareserva"
    ∧ (EvaluateNotebookEntity.idvol data ≠ VUndefined →
       r !!! "idvol" = EvaluateNotebookEntity.idvol data).
Proof.
  intros Hinit. revert r. induction ops as [|[now o] ops IH] using rev_ind; intros r Hr Hev.
  { exfalso. apply Hev. unfold initial in Hinit. rewrite Forall_forall in Hinit.
    apply (Hinit r). by eapply list_elem_of_lookup_2. }
  rewrite run_snoc, step_lookup in Hr.
  destruct (Notebooks (run s ops) !! i) as [r1|] eqn:Hr1; [|done].
  simpl in Hr. injection Hr as <-.
  destruct (decide (r1 !!! col_evaluatedAt = VNull)) as [Hnull|Hdone].
  - destruct (step_row_becomes_evaluated now o r1 Hnull Hev) as (n & data & -> & Hc & Heq).
    exists ops, now, n, data, [], r1. rewrite Heq.
    split; [done|]. split; [done|]. split; [done|]. split; [done|]. split; [|split].
    + apply assign_evaluation_evaluatedAt.
    + rewrite !lookup_total_alt.
      by rewrite (assign_evaluation_other _ _ _ _ datareserva_not_evaluation_column).
    + intros Hdef. by rewrite assign_evaluation_idvol, decide_False.
  - rewrite (step_row_evaluated now o r1 Hdone) in Hev |- *.
    destruct (IH r1 eq_refl Hev) as (ops1 & t & n & data & ops2 & r0 & -> & Hrest).
    exists ops1, t, n, data, (ops2 ++ [(now, o)]), r0.
    split; [by rewrite <- app_assoc|done].
Qed.

End Lifecycle.

(** ** The controller *)

Section ControllerFacts.
Context `{!Runtime}.
Variable AvailableNotebookRowEntity : Type.
Variable formatAvailableNotebookToTableRow :
  NotebookEntity.t → AvailableNotebookRowEntity.
Variable VolunteerEntity : Type.
Variable getVolunteerById : Store → Z → option VolunteerEntity.

(** C8.  The controller's reservation answers 412 [VOLUNTEER_NOT_FOUND] when
    the volunteer repository finds no volunteer; otherwise 404
    [NOTEBOOK_NOT_FOUND] when no row has the notebook id; otherwise, when the
    repository's claim returns [null] because no row with that id has both
    dates null, 400 [NOTEBOOK_ALREADY_RESERVED_ERROR]; in these three cases
    the database is the one before.  Otherwise it answers the notebook that
    the repository's claim returned, formatted, with the database that claim
    left.  The messages of the first two errors carry the id as the template
    literal prints a number, [number_toString]. *)
Theorem reserve_controller s now idvol notebookId :
  let answer :=
    NotebookAPI.reserveNotebookForVolunteer AvailableNotebookRowEntity
      formatAvailableNotebookToTableRow VolunteerEntity getVolunteerById
      s now idvol notebookId in
  (getVolunteerById s idvol = None →
   answer = (s, inl {| status := 412;
                       name := "VOLUNTEER_NOT_FOUND";
                       message := "Volunteer with id " +:+ number_toString idvol +:+ " not found" |}))
  ∧ (is_Some (getVolunteerById s idvol) →
     (∀ r : Row, r ∈ Notebooks s → r !!! "idcad" ≠ VNum notebookId) →
     answer = (s, inl {| status := 404;
                         name := "NOTEBOOK_NOT_FOUND";
                         message := "Notebook with id " +:+ number_toString notebookId
                                      +:+ " not found" |}))
  ∧ (is_Some (getVolunteerById s idvol) →
     (∃ r : Row, r ∈ Notebooks s ∧ r !!! "idcad" = VNum notebookId) →
     (∀ r : Row, r ∈ Notebooks s → ¬ claimable notebookId r) →
     reserveNotebookForVolunteer s now idvol notebookId = (s, None)
     ∧ answer = (s, inl {| status := 400;
                           name := "NOTEBOOK_ALREADY_RESERVED_ERROR";
                           message := "Notebook already reserved or already evaluated" |}))
  ∧ (is_Some (getVolunteerById s idvol) →
     (∃ r : Row, r ∈ Notebooks s ∧ claimable notebookId r) →
     ∃ s' reserved,
       reserveNotebookForVolunteer s now idvol notebookId = (s', Some reserved)
       ∧ answer = (s', inr (formatAvailableNotebookToTableRow reserved))).
Proof.
  intros answer. subst answer. unfold NotebookAPI.reserveNotebookForVolunteer.
  split; [|split; [|split]].
  - by intros ->.
  - intros [v ->] Hno.
    destruct (getNotebookById s notebookId) as [e|] eqn:He; [|done].
    exfalso. destruct (proj1 (getNotebookById_is_Some s notebookId))
      as (r & Hr & Hid); [by rewrite He|]. by apply (Hno r).
  - intros [v ->] Hex Hno.
    destruct (proj2 (getNotebookById_is_Some s notebookId) Hex) as [e ->].
    by rewrite (reserve_rejected s now idvol notebookId Hno).
  - intros [v ->] Hex.
    assert (∃ r : Row, r ∈ Notebooks s ∧ r !!! "idcad" = VNum notebookId) as Hid.
    { destruct Hex as (r & Hr & Hc & _). eauto. }
    destruct (proj2 (getNotebookById_is_Some s notebookId) Hid) as [e ->].
    apply (reserve_is_Some s now idvol) in Hex.
    destruct (reserveNotebookForVolunteer s now idvol notebookId)
      as [s' [reserved|]]; [|by destruct Hex].
    by exists s', reserved.
Qed.

End ControllerFacts.

(** ** Further properties of the lifecycle *)

Lemma store_eq (s1 s2 : Store) :
  Notebooks s1 = Notebooks s2 → Volunteers s1 = Volunteers s2 → Peps s1 = Peps s2 →
  s1 = s2.
Proof. destruct s1, s2. simpl. by intros -> -> ->. Qed.

Lemma claimed_row_reserved idvol now (r : Row) :
  (<[ "idvol" := VNum idvol ]> (<[ "datareserva" := VDate now ]> r)) !!! "datareserva"
  = VDate now.
Proof.
  rewrite !lookup_total_alt.
  rewrite (lookup_insert_ne _ "idvol") by done. by rewrite lookup_insert_eq.
Qed.

Lemma claimed_row_evaluatedAt idvol now (r : Row) :
  (<[ "idvol" := VNum idvol ]> (<[ "datareserva" := VDate now ]> r)) !!! col_evaluatedAt
  = r !!! col_evaluatedAt.
Proof. rewrite !lookup_total_alt. by rewrite !lookup_insert_ne. Qed.

Lemma claimed_row_idvol idvol now (r : Row) :
  (<[ "idvol" := VNum idvol ]> (<[ "datareserva" := VDate now ]> r)) !!! "idvol"
  = VNum idvol.
Proof. rewrite !lookup_total_alt. by rewrite lookup_insert_eq. Qed.

(** An operation on another notebook leaves a row alone. *)
Lemma step_row_other now o (r : Row) :
  r !!! "idcad" ≠ VNum (op_notebook o) → step_row now o r = r.
Proof.
  intros Hid. destruct o as [idvol n|n data]; unfold step_row; case_decide as Hc.
  - by destruct Hc as (Hn & _).
  - done.
  - by destruct Hc as (Hn & _).
  - done.
Qed.

(** No operation makes a row claimable. *)
Lemma step_row_not_claimable now o n (r : Row) :
  ¬ claimable n r → ¬ claimable n (step_row now o r).
Proof.
  intros Hno. destruct o as [idvol m|m data]; unfold step_row; case_decide as Hc.
  - intros (_ & Hres & _). by rewrite claimed_row_reserved in Hres.
  - done.
  - intros (_ & _ & Hev). by rewrite assign_evaluation_evaluatedAt in Hev.
  - done.
Qed.

(** After a claim of a notebook no row can be claimed as that notebook. *)
Lemma step_row_claimed now idvol n (r : Row) :
  ¬ claimable n (step_row now (Claim idvol n) r).
Proof.
  unfold step_row; case_decide as Hc.
  - intros (_ & Hres & _). by rewrite claimed_row_reserved in Hres.
  - done.
Qed.

(** After an evaluation of a notebook its rows are evaluated. *)
Lemma step_row_evaluation_done now n data (r : Row) :
  step_row now (Evaluate n data) r !!! "idcad" = VNum n →
  step_row now (Evaluate n data) r !!! col_evaluatedAt ≠ VNull.
Proof.
  unfold step_row; case_decide as Hc.
  - intros _. by rewrite assign_evaluation_evaluatedAt.
  - intros Hid Hnull. by apply Hc.
Qed.

(** An operation on a notebook leaves none of its rows available. *)
Lemma step_row_not_available now o (r : Row) :
  r !!! "idcad" = VNum (op_notebook o) → ¬ available (step_row now o r).
Proof.
  intros Hid. destruct o as [idvol n|n data]; unfold step_row; case_decide as Hc.
  - intros (Hres & _). by rewrite claimed_row_reserved in Hres.
  - intros (Hres & Hev). by apply Hc.
  - intros (_ & Hev). by rewrite assign_evaluation_evaluatedAt in Hev.
  - intros (_ & Hev). by apply Hc.
Qed.

Lemma matches_where_evaluated_by idvol (r : Row) :
  matches (where_evaluated_by idvol) r ↔ evaluated_by idvol r.
Proof.
  unfold where_evaluated_by, evaluated_by. rewrite !matches_cons. simpl.
  rewrite andb_true_r, !andb_True, !bool_decide_spec. tauto.
Qed.

(** A filter sees through a function that keeps its predicate. *)
Lemma filter_fmap_length {A} (P : A → Prop) `{!∀ x, Decision (P x)} (f : A → A) (l : list A) :
  (∀ x, x ∈ l → (P (f x) ↔ P x)) →
  length (filter P (f <$> l)) = length (filter P l).
Proof.
  induction l as [|x l IH]; intros Hf; [done|].
  rewrite fmap_cons, !filter_cons.
  assert (P (f x) ↔ P x) as Hx by (apply Hf; left).
  assert (length (filter P (f <$> l)) = length (filter P l)) as Hl.
  { apply IH. intros y Hy. apply Hf. by right. }
  destruct (decide (P (f x))), (decide (P x)); simpl; try tauto; by rewrite Hl.
Qed.

Lemma filter_fmap_length_le {A} (P : A → Prop) `{!∀ x, Decision (P x)} (f : A → A) (l : list A) :
  (∀ x, x ∈ l → P x → P (f x)) →
  (length (filter P l) ≤ length (filter P (f <$> l)))%nat.
Proof.
  induction l as [|x l IH]; intros Hf; [done|].
  rewrite fmap_cons, !filter_cons.
  assert (P x → P (f x)) as Hx by (apply Hf; left).
  assert (length (filter P l) ≤ length (filter P (f <$> l)))%nat as Hl.
  { apply IH. intros y Hy. apply Hf. by right. }
  destruct (decide (P (f x))), (decide (P x)); simpl; try tauto; lia.
Qed.

(** A filter is not affected by a function that fixes what it keeps and
    keeps out what it rejects. *)
Lemma filter_fmap_fixed {A} (P : A → Prop) `{!∀ x, Decision (P x)} (f : A → A) (l : list A) :
  (∀ x, P x → f x = x) → (∀ x, P (f x) → P x) →
  filter P (f <$> l) = filter P l.
Proof.
  intros Hfix Hback. induction l as [|x l IH]; [done|].
  rewrite fmap_cons, !filter_cons, IH.
  destruct (decide (P x)) as [Hx|Hx].
  - rewrite (Hfix x Hx). by rewrite decide_True.
  - rewrite decide_False; [done|]. intros Hfx. by apply Hx, Hback.
Qed.

Section Composition.
Context `{!Runtime}.

Lemma run_tables s ops :
  Volunteers (run s ops) = Volunteers s ∧ Peps (run s ops) = Peps s.
Proof.
  revert s. induction ops as [|[now o] ops IH]; intros s; [done|].
  rewrite run_cons. destruct (IH (step s now o)) as [-> ->]. apply step_tables.
Qed.

Lemma run_ids s ops :
  (λ r : Row, r !!! "idcad") <$> Notebooks (run s ops)
  = (λ r : Row, r !!! "idcad") <$> Notebooks s.
Proof.
  revert s. induction ops as [|[now o] ops IH]; intros s; [done|].
  by rewrite run_cons, IH, step_ids.
Qed.

Lemma step_no_claimable s now o n :
  no_claimable n s → no_claimable n (step s now o).
Proof.
  unfold no_claimable. rewrite step_notebooks, Forall_fmap. intros Hno.
  eapply Forall_impl; [exact Hno|]. intros r Hr. simpl.
  by apply step_row_not_claimable.
Qed.

Lemma run_no_claimable s ops n :
  no_claimable n s → no_claimable n (run s ops).
Proof.
  revert s. induction ops as [|[now o] ops IH]; intros s Hno; [done|].
  rewrite run_cons. by apply IH, step_no_claimable.
Qed.

Lemma reserve_no_claimable s now idvol n :
  no_claimable n (reserveNotebookForVolunteer s now idvol n).1.
Proof.
  unfold no_claimable. rewrite reserve_notebooks, Forall_fmap.
  apply Forall_forall. intros r _. simpl. apply step_row_claimed.
Qed.

Lemma step_evaluated_notebook s now o n :
  evaluated_notebook n s → evaluated_notebook n (step s now o).
Proof.
  unfold evaluated_notebook. rewrite step_notebooks, Forall_fmap. intros Hev.
  eapply Forall_impl; [exact Hev|]. intros r Hr. simpl.
  rewrite step_row_idcad. intros Hid.
  by rewrite (step_row_evaluated now o r (Hr Hid)); apply Hr.
Qed.

Lemma run_evaluated_notebook s ops n :
  evaluated_notebook n s → evaluated_notebook n (run s ops).
Proof.
  revert s. induction ops as [|[now o] ops IH]; intros s Hev; [done|].
  rewrite run_cons. by apply IH, step_evaluated_notebook.
Qed.

Lemma evaluate_evaluated_notebook s now n data :
  evaluated_notebook n (saveNotebookEvaluation s now n data).1.
Proof.
  unfold evaluated_notebook. rewrite evaluate_notebooks, Forall_fmap.
  apply Forall_forall. intros r _. simpl. apply step_row_evaluation_done.
Qed.

(** X2.  A notebook is claimed at most once: after a claim of it, whatever
    its outcome and whatever claims and evaluations follow, every further
    claim of it returns [null] and changes nothing. *)
Theorem claim_at_most_once s now idvol notebookId ops now' idvol' :
  let s1 := run (reserveNotebookForVolunteer s now idvol notebookId).1 ops in
  reserveNotebookForVolunteer s1 now' idvol' notebookId = (s1, None).
Proof.
  intros s1. apply reserve_rejected.
  pose proof (run_no_claimable _ ops notebookId
                (reserve_no_claimable s now idvol notebookId)) as Hno.
  unfold no_claimable in Hno. rewrite Forall_forall in Hno. exact Hno.
Qed.

(** X3.  A notebook is evaluated at most once: after an evaluation of it,
    whatever its outcome and whatever claims and evaluations follow, every
    further evaluation and every claim of it returns [null] and changes
    nothing. *)
Theorem evaluate_at_most_once s now notebookId notebookData ops now' idvol' notebookData' :
  let s1 := run (saveNotebookEvaluation s now notebookId notebookData).1 ops in
  saveNotebookEvaluation s1 now' notebookId notebookData' = (s1, None)
  ∧ reserveNotebookForVolunteer s1 now' idvol' notebookId = (s1, None).
Proof.
  intros s1.
  destruct (evaluated_notebook_no_match notebookId s1) as [Hclaim Heval].
  { apply run_evaluated_notebook, evaluate_evaluated_notebook. }
  split; [by apply evaluate_rejected | by apply reserve_rejected].
Qed.

(** X4.  No sequence of claims and evaluations adds or removes a notebook
    row, changes the id of one, or writes to the volunteer or class tables. *)
Theorem run_keeps_rows s ops :
  length (Notebooks (run s ops)) = length (Notebooks s)
  ∧ (λ r : Row, r !!! "idcad") <$> Notebooks (run s ops)
    = (λ r : Row, r !!! "idcad") <$> Notebooks s
  ∧ Volunteers (run s ops) = Volunteers s
  ∧ Peps (run s ops) = Peps s.
Proof.
  pose proof (run_ids s ops) as Hids.
  split; [|split; [done|apply run_tables]].
  apply (f_equal length) in Hids. by rewrite !length_fmap in Hids.
Qed.

(** X5.  A row that has an evaluation date is never written again: after any
    sequence of claims and evaluations, of this or of other notebooks, it is
    as it was, in every column. *)
Theorem evaluated_row_frozen s ops i (r : Row) :
  Notebooks s !! i = Some r →
  r !!! col_evaluatedAt ≠ VNull →
  Notebooks (run s ops) !! i = Some r.
Proof.
  revert s. induction ops as [|[now o] ops IH]; intros s Hr Hev; [done|].
  rewrite run_cons. apply IH; [|done].
  rewrite step_lookup, Hr. simpl. by rewrite (step_row_evaluated now o r Hev).
Qed.

Lemma step_row_commute now1 o1 now2 o2 (r : Row) :
  op_notebook o1 ≠ op_notebook o2 →
  step_row now2 o2 (step_row now1 o1 r) = step_row now1 o1 (step_row now2 o2 r).
Proof.
  intros Hne. destruct (decide (r !!! "idcad" = VNum (op_notebook o1))) as [Hid|Hid].
  - assert (r !!! "idcad" ≠ VNum (op_notebook o2)) as Hid2 by congruence.
    rewrite (step_row_other now2 o2 r Hid2).
    apply step_row_other. by rewrite step_row_idcad.
  - rewrite (step_row_other now1 o1 r Hid). symmetry.
    apply step_row_other. by rewrite step_row_idcad.
Qed.

Lemma step_swap s now1 o1 now2 o2 :
  op_notebook o1 ≠ op_notebook o2 →
  step (step s now1 o1) now2 o2 = step (step s now2 o2) now1 o1.
Proof.
  intros Hne. apply store_eq.
  - rewrite !step_notebooks, <- !list_fmap_compose.
    apply list_fmap_ext. intros i r _. simpl. by apply step_row_commute.
  - destruct (step_tables (step s now1 o1) now2 o2) as [-> _].
    destruct (step_tables (step s now2 o2) now1 o1) as [-> _].
    destruct (step_tables s now1 o1) as [-> _].
    by destruct (step_tables s now2 o2) as [-> _].
  - destruct (step_tables (step s now1 o1) now2 o2) as [_ ->].
    destruct (step_tables (step s now2 o2) now1 o1) as [_ ->].
    destruct (step_tables s now1 o1) as [_ ->].
    by destruct (step_tables s now2 o2) as [_ ->].
Qed.

Lemma op_matches_idcad o (r : Row) :
  op_matches o r → r !!! "idcad" = VNum (op_notebook o).
Proof. destruct o as [idvol n|n data]; by intros (Hid & _). Qed.

Lemma step_result_is_Some s now o :
  is_Some (step_result s now o) ↔ ∃ r, r ∈ Notebooks s ∧ op_matches o r.
Proof.
  destruct o as [idvol n|n data]; [apply reserve_is_Some | apply evaluate_is_Some].
Qed.

Lemma step_result_refreshed s now o :
  is_Some (step_result s now o) →
  step_result s now o = getNotebookById (step s now o) (op_notebook o).
Proof.
  destruct o as [idvol n|n data]; [apply reserve_refreshed | apply evaluate_refreshed].
Qed.

Lemma op_matches_step_other now o1 o2 (r : Row) :
  op_notebook o1 ≠ op_notebook o2 →
  op_matches o2 (step_row now o1 r) ↔ op_matches o2 r.
Proof.
  intros Hne. destruct (decide (r !!! "idcad" = VNum (op_notebook o1))) as [Hid|Hid].
  - split; intros Hm%op_matches_idcad; exfalso.
    + rewrite step_row_idcad in Hm. congruence.
    + congruence.
  - by rewrite (step_row_other now o1 r Hid).
Qed.

Lemma getNotebookById_step_other s now o n :
  op_notebook o ≠ n → getNotebookById (step s now o) n = getNotebookById s n.
Proof.
  intros Hne. unfold getNotebookById, findOne, findAll.
  destruct (step_tables s now o) as [-> ->]. rewrite step_notebooks.
  rewrite (filter_fmap_fixed (λ r : Row, matches [ ("idcad", CEq (VNum n)) ] r)); [done| |].
  - intros r Hm%matches_where_id. apply step_row_other. congruence.
  - intros r Hm%matches_where_id. apply matches_where_id.
    by rewrite step_row_idcad in Hm.
Qed.

(** X6.  Operations on different notebooks are independent: in either order
    they leave the same database, and an operation returns what it would
    have returned had the other not run before it. *)
Theorem operations_independent s now1 o1 now2 o2 :
  op_notebook o1 ≠ op_notebook o2 →
  step (step s now1 o1) now2 o2 = step (step s now2 o2) now1 o1
  ∧ step_result (step s now1 o1) now2 o2 = step_result s now2 o2.
Proof.
  intros Hne. split; [by apply step_swap|].
  assert ((∃ r, r ∈ Notebooks (step s now1 o1) ∧ op_matches o2 r)
          ↔ ∃ r, r ∈ Notebooks s ∧ op_matches o2 r) as Hex.
  { rewrite step_notebooks. setoid_rewrite list_elem_of_fmap. split.
    - intros (r' & (r & -> & Hr) & Hm). exists r. split; [done|].
      by apply (op_matches_step_other now1 o1 o2 r Hne).
    - intros (r & Hr & Hm). exists (step_row now1 o1 r). split; [eauto|].
      by apply (op_matches_step_other now1 o1 o2 r Hne). }
  rewrite <- !step_result_is_Some in Hex.
  destruct (step_result s now2 o2) as [e|] eqn:He.
  - assert (is_Some (step_result (step s now1 o1) now2 o2)) as Hsome
      by (apply Hex; by eexists).
    rewrite (step_result_refreshed _ _ _ Hsome), (step_swap s now1 o1 now2 o2 Hne).
    rewrite getNotebookById_step_other by done.
    rewrite <- He. symmetry. apply step_result_refreshed. rewrite He. by eexists.
  - destruct (step_result (step s now1 o1) now2 o2) as [e|] eqn:He1; [|done].
    exfalso. rewrite He in Hex. destruct (proj1 Hex) as [e' He']; [by eexists|done].
Qed.

End Composition.

(** ** Further properties of the mappers and of the queries *)

Section MapperFacts.
Context `{!Runtime}.

(** X10.  Every field of an evaluation request comes back from storage: the
    notebook read from a row after the evaluation was written to it has, in
    each of the 27 copied fields, the value that was sent, or what the row
    held when the field sent is [undefined]; its evaluation date is the time
    of the evaluation. *)
Theorem evaluation_roundtrip now (e : EvaluateNotebookEntity.t) (r : Row) vol pp :
  let read :=
    notebookModelToEntity
      {| attrs := assign (evaluateNotebookEntityToEvaluateNotebookModel now e) r;
         volunteer := vol; pep := pp |} in
  NotebookEntity.evaluatedDate read = VDate now
  ∧ NotebookEntity.idvol read
    = written (EvaluateNotebookEntity.idvol e) (r !!! "idvol")
  ∧ NotebookEntity.studentPrisonUnit read
    = written (EvaluateNotebookEntity.studentPrisonUnit e) (r !!! "unidade prisional do(a) aluno(a)")
  ∧ NotebookEntity.subject1 read
    = written (EvaluateNotebookEntity.subject1 e) (r !!! "tema 1")
  ∧ NotebookEntity.subject2 read
    = written (EvaluateNotebookEntity.subject2 e) (r !!! "tema 2")
  ∧ NotebookEntity.subject3 read
    = written (EvaluateNotebookEntity.subject3 e) (r !!! "tema 3")
  ∧ NotebookEntity.subject4 read
    = written (EvaluateNotebookEntity.subject4 e) (r !!! "tema 4")
  ∧ NotebookEntity.subject5 read
    = written (EvaluateNotebookEntity.subject5 e) (r !!! "tema 5")
  ∧ NotebookEntity.subject6 read
    = written (EvaluateNotebookEntity.subject6 e) (r !!! "tema 6")
  ∧ NotebookEntity.subject7 read
    = written (EvaluateNotebookEntity.subject7 e) (r !!! "tema 7")
  ∧ NotebookEntity.subject8 read
    = written (EvaluateNotebookEntity.subject8 e) (r !!! "tema 8")
  ∧ NotebookEntity.subject9 read
    = written (EvaluateNotebookEntity.subject9 e) (r !!! "tema 9")
  ∧ NotebookEntity.subject10 read
    = written (EvaluateNotebookEntity.subject10 e) (r !!! "tema 10")
  ∧ NotebookEntity.relevantContent read
    = written (EvaluateNotebookEntity.relevantContent e) (r !!! "conteúdos relevantes")
  ∧ NotebookEntity.a1 read
    = written (EvaluateNotebookEntity.a1 e) (r !!! "a1")
  ∧ NotebookEntity.a2 read
    = written (EvaluateNotebookEntity.a2 e) (r !!! "a2")
  ∧ NotebookEntity.a3 read
    = written (EvaluateNotebookEntity.a3 e) (r !!! "a3")
  ∧ NotebookEntity.a4 read
    = written (EvaluateNotebookEntity.a4 e) (r !!! "a4")
  ∧ NotebookEntity.a5 read
    = written (EvaluateNotebookEntity.a5 e) (r !!! "a5")
  ∧ NotebookEntity.a6 read
    = written (EvaluateNotebookEntity.a6 e) (r !!! "a6")
  ∧ NotebookEntity.a7 read
    = written (EvaluateNotebookEntity.a7 e) (r !!! "a7")
  ∧ NotebookEntity.a8 read
    = written (EvaluateNotebookEntity.a8 e) (r !!! "a8")
  ∧ NotebookEntity.a9 read
    = written (EvaluateNotebookEntity.a9 e) (r !!! "a9")
  ∧ NotebookEntity.a10 read
    = written (EvaluateNotebookEntity.a10 e) (r !!! "a10")
  ∧ NotebookEntity.a11 read
    = written (EvaluateNotebookEntity.a11 e) (r !!! "a11")
  ∧ NotebookEntity.a12 read
    = written (EvaluateNotebookEntity.a12 e) (r !!! "a12")
  ∧ NotebookEntity.a13 read
    = written (EvaluateNotebookEntity.a13 e) (r !!! "a13")
  ∧ NotebookEntity.conclusion read
    = written (EvaluateNotebookEntity.conclusion e) (r !!! "conclusão do avaliador").
Proof.
  intros read. subst read. unfold written.
  cbn [notebookModelToEntity attrs NotebookEntity.evaluatedDate NotebookEntity.idvol NotebookEntity.studentPrisonUnit NotebookEntity.subject1 NotebookEntity.subject2 NotebookEntity.subject3 NotebookEntity.subject4 NotebookEntity.subject5 NotebookEntity.subject6 NotebookEntity.subject7 NotebookEntity.subject8 NotebookEntity.subject9 NotebookEntity.subject10 NotebookEntity.relevantContent NotebookEntity.a1 NotebookEntity.a2 NotebookEntity.a3 NotebookEntity.a4 NotebookEntity.a5 NotebookEntity.a6 NotebookEntity.a7 NotebookEntity.a8 NotebookEntity.a9 NotebookEntity.a10 NotebookEntity.a11 NotebookEntity.a12 NotebookEntity.a13 NotebookEntity.conclusion].
  split; [apply assign_evaluation_evaluatedAt|].
  repeat split;
    (apply assign_evaluation_field;
     unfold evaluateNotebookEntityToEvaluateNotebookModel_fields;
     repeat (first [ by left | right ])).
Qed.

Lemma identity_columns_not_written :
  Forall (λ c, c ∉ evaluation_columns)
    [ "idcad"; "idpep"; "nome do(a) aluno(a)";
      "número de matrícula do(a) aluno(a)"; "datareserva" ].
Proof. by_evaluation. Qed.

(** X11.  An evaluation never changes who the notebook is or when it was
    reserved: the notebook read from a row after an evaluation was written
    to it has the id, the class, the student's name and registration and the
    reservation date that it had before. *)
Theorem evaluation_keeps_identity now (e : EvaluateNotebookEntity.t) (r : Row) vol pp :
  let before := notebookModelToEntity {| attrs := r; volunteer := vol; pep := pp |} in
  let after :=
    notebookModelToEntity
      {| attrs := assign (evaluateNotebookEntityToEvaluateNotebookModel now e) r;
         volunteer := vol; pep := pp |} in
  NotebookEntity.idcad after = NotebookEntity.idcad before
  ∧ NotebookEntity.idpep after = NotebookEntity.idpep before
  ∧ NotebookEntity.studentName after = NotebookEntity.studentName before
  ∧ NotebookEntity.studentRegistration after = NotebookEntity.studentRegistration before
  ∧ NotebookEntity.reservationDate after = NotebookEntity.reservationDate before.
Proof.
  intros before after. subst before after.
  cbn [notebookModelToEntity attrs NotebookEntity.idcad NotebookEntity.idpep
       NotebookEntity.studentName NotebookEntity.studentRegistration
       NotebookEntity.reservationDate].
  pose proof identity_columns_not_written as Hcols.
  rewrite Forall_forall in Hcols.
  rewrite !lookup_total_alt.
  rewrite !assign_evaluation_other by (apply Hcols; set_solver).
  done.
Qed.

(** X12.  [getNotebookById] returns [null] exactly when no row has the id,
    and a notebook it returns carries the id that was asked for. *)
Theorem getNotebookById_missing s notebookId :
  (getNotebookById s notebookId = None
   ↔ ∀ r : Row, r ∈ Notebooks s → r !!! "idcad" ≠ VNum notebookId)
  ∧ (∀ e, getNotebookById s notebookId = Some e →
       NotebookEntity.idcad e = VNum notebookId).
Proof.
  split.
  - pose proof (getNotebookById_is_Some s notebookId) as Hsome. split.
    + intros Hnone r Hr Hid.
      destruct (proj2 Hsome) as [e He]; [eauto|]. congruence.
    + intros Hno. destruct (getNotebookById s notebookId) as [e|] eqn:He; [|done].
      exfalso. destruct (proj1 Hsome) as (r & Hr & Hid); [by eexists|].
      by apply (Hno r).
  - intros e. unfold getNotebookById, findOne, findAll.
    destruct (filter _ (Notebooks s)) as [|r l] eqn:Hf; [done|].
    simpl. intros [= <-]. cbn [notebookModelToEntity attrs NotebookEntity.idcad].
    assert (r ∈ filter (λ r : Row, matches [ ("idcad", CEq (VNum notebookId)) ] r)
                  (Notebooks s)) as Hin by (rewrite Hf; left).
    apply list_elem_of_filter in Hin as [Hm _]. by apply matches_where_id.
Qed.

(** X7.  After an operation on a notebook, [getAvailableNotebooks] returns
    what it returned before without that notebook: the notebook is no longer
    offered, and no other notebook enters, leaves or moves. *)
Theorem getAvailableNotebooks_after s now o :
  getAvailableNotebooks (step s now o)
  = filter (λ e, NotebookEntity.idcad e ≠ VNum (op_notebook o))
           (getAvailableNotebooks s).
Proof.
  unfold getAvailableNotebooks, findAll.
  destruct (step_tables s now o) as [_ ->]. rewrite step_notebooks.
  induction (Notebooks s) as [|x l IH]; [done|].
  rewrite fmap_cons, !filter_cons.
  destruct (decide (x !!! "idcad" = VNum (op_notebook o))) as [Hid|Hid].
  - rewrite decide_False.
    2:{ rewrite matches_where_available. by apply step_row_not_available. }
    rewrite IH. destruct (decide (matches where_available x)); [|done].
    rewrite fmap_cons, filter_cons. by rewrite decide_False by (by intros Hq; apply Hq).
  - rewrite (step_row_other now o x Hid).
    destruct (decide (matches where_available x)); [|done].
    rewrite !fmap_cons, filter_cons, IH. by rewrite decide_True.
Qed.

Lemma evaluated_by_step_row now o w (r : Row) :
  evaluated_by w r → evaluated_by w (step_row now o r).
Proof. intros Hev. by rewrite (step_row_evaluated now o r (proj2 Hev)). Qed.

Lemma evaluated_by_claim now idvol n w (r : Row) :
  evaluated_by w (step_row now (Claim idvol n) r) ↔ evaluated_by w r.
Proof.
  unfold step_row. case_decide as Hc; [|done].
  destruct Hc as (_ & _ & Hnull). unfold evaluated_by.
  rewrite claimed_row_evaluatedAt. split; intros [_ Hev]; by rewrite Hnull in Hev.
Qed.

Lemma countEvaluated_step_le s now o w :
  (countEvaluatedNotebooksByIdVol s w
   ≤ countEvaluatedNotebooksByIdVol (step s now o) w)%nat.
Proof.
  unfold countEvaluatedNotebooksByIdVol, count, findAll. rewrite step_notebooks.
  apply filter_fmap_length_le. intros r _.
  rewrite !matches_where_evaluated_by. apply evaluated_by_step_row.
Qed.

(** X8.  No claim changes how many notebooks a volunteer has evaluated, and
    along any sequence of claims and evaluations that number never goes
    down. *)
Theorem countEvaluated_monotone s w :
  (∀ now idvol notebookId,
     countEvaluatedNotebooksByIdVol
       (reserveNotebookForVolunteer s now idvol notebookId).1 w
     = countEvaluatedNotebooksByIdVol s w)
  ∧ (∀ ops,
       (countEvaluatedNotebooksByIdVol s w
        ≤ countEvaluatedNotebooksByIdVol (run s ops) w)%nat).
Proof.
  split.
  - intros now idvol n.
    unfold countEvaluatedNotebooksByIdVol, count, findAll. rewrite reserve_notebooks.
    apply filter_fmap_length. intros r _.
    rewrite !matches_where_evaluated_by. apply evaluated_by_claim.
  - intros ops. revert s. induction ops as [|[now o] ops IH]; intros s; [done|].
    rewrite run_cons. etrans; [apply (countEvaluated_step_le s now o w)|apply IH].
Qed.

End MapperFacts.

Section Counting.
Context `{!Runtime}.

(** What a filter gains through a function that keeps what it has. *)
Lemma filter_fmap_length_gain {A} (P : A → Prop) `{!∀ x, Decision (P x)}
    (f : A → A) (l : list A) :
  (∀ x, P x → P (f x)) →
  length (filter P (f <$> l))
  = (length (filter P l) + length (filter (λ x, P (f x) ∧ ¬ P x) l))%nat.
Proof.
  intros Hkeep. induction l as [|x l IH]; [done|].
  rewrite fmap_cons, !filter_cons.
  destruct (decide (P (f x))) as [Hfx|Hfx], (decide (P x)) as [Hx|Hx]; simpl.
  - rewrite decide_False by tauto. rewrite IH. lia.
  - rewrite decide_True by tauto. simpl. rewrite IH. lia.
  - by specialize (Hkeep x Hx).
  - rewrite decide_False by tauto. by rewrite IH.
Qed.

(** With ids identifying rows, an evaluation matches one row at most. *)
Lemma filter_evaluable_unique s n (r : Row) :
  unique_ids s → r ∈ Notebooks s → evaluable n r →
  filter (evaluable n) (Notebooks s) = [r].
Proof.
  intros Huniq Hr Hc.
  rewrite (list_filter_iff _ (λ x : Row, evaluable n x ∧ x !!! "idcad" = r !!! "idcad")).
  - rewrite <- list_filter_filter.
    rewrite (filter_unique_key (λ r : Row, r !!! "idcad") _ r Huniq Hr).
    rewrite filter_cons, decide_True by done. done.
  - intros x. split; [|tauto]. intros Hx. split; [done|].
    destruct Hc as (-> & _). by destruct Hx as (-> & _).
Qed.

(** X9.  With ids identifying rows, a successful evaluation sent with the
    id of volunteer [w] adds exactly one to the number of notebooks that
    [w] has evaluated, and changes that number for no other volunteer. *)
Theorem countEvaluated_after_evaluation s now notebookId notebookData w :
  unique_ids s →
  EvaluateNotebookEntity.idvol notebookData = VNum w →
  is_Some (saveNotebookEvaluation s now notebookId notebookData).2 →
  countEvaluatedNotebooksByIdVol
    (saveNotebookEvaluation s now notebookId notebookData).1 w
  = S (countEvaluatedNotebooksByIdVol s w)
  ∧ (∀ v, v ≠ w →
       countEvaluatedNotebooksByIdVol
         (saveNotebookEvaluation s now notebookId notebookData).1 v
       = countEvaluatedNotebooksByIdVol s v).
Proof.
  intros Huniq Hw Hsome.
  apply evaluate_is_Some in Hsome as (r & Hr & Hc).
  assert (∀ x : Row, evaluable notebookId x →
            step_row now (Evaluate notebookId notebookData) x !!! "idvol" = VNum w
            ∧ step_row now (Evaluate notebookId notebookData) x !!! col_evaluatedAt
              = VDate now) as Hrow.
  { intros x Hx. unfold step_row. rewrite decide_True by done.
    rewrite assign_evaluation_idvol, assign_evaluation_evaluatedAt, Hw.
    by rewrite decide_False. }
  unfold countEvaluatedNotebooksByIdVol, count, findAll.
  rewrite evaluate_notebooks. split.
  - rewrite (list_filter_iff _ (evaluated_by w)) by (intros x; apply matches_where_evaluated_by).
    rewrite (list_filter_iff (λ r0 : Row, matches (where_evaluated_by w) r0) (evaluated_by w))
      by (intros x; apply matches_where_evaluated_by).
    rewrite filter_fmap_length_gain by (intros x; apply evaluated_by_step_row).
    rewrite (list_filter_iff
               (λ x : Row,
                  evaluated_by w (step_row now (Evaluate notebookId notebookData) x)
                  ∧ ¬ evaluated_by w x)
               (evaluable notebookId)).
    + rewrite (filter_evaluable_unique s notebookId r Huniq Hr Hc). simpl. lia.
    + intros x. split.
      * intros [Hafter Hbefore].
        destruct (decide (evaluable notebookId x)) as [|Hx]; [done|].
        exfalso. apply Hbefore. revert Hafter. unfold step_row. by rewrite decide_False.
      * intros Hx. destruct (Hrow x Hx) as [Hvol Hev]. split.
        -- split; [done|]. by rewrite Hev.
        -- intros [_ Hev']. by destruct Hx as (_ & Hnull).
  - intros v Hv. apply filter_fmap_length. intros x _.
    rewrite !matches_where_evaluated_by.
    destruct (decide (evaluable notebookId x)) as [Hx|Hx].
    + destruct (Hrow x Hx) as [Hvol Hev]. split.
      * intros [Hvol' _]. rewrite Hvol in Hvol'. congruence.
      * intros [_ Hev']. by destruct Hx as (_ & Hnull).
    + unfold step_row. by rewrite decide_False.
Qed.

End Counting.

Section FurtherFacts.
Context `{!Runtime}.

(** X1.  The controller's evaluation answers 404 [NOTEBOOK_NOT_FOUND] when
    no row has the notebook id; when there are rows with the id but each
    has an evaluation date, 400 [NOTEBOOK_ALREADY_EVALUATED_ERROR]; in both
    cases the database is the one before and the message carries the id as
    the template literal prints a number, [number_toString].  Otherwise it
    answers the notebook that the repository's evaluation returned, with the
    database that evaluation left. *)
Theorem evaluate_controller s now notebookId notebookData :
  let answer := NotebookAPI.saveNotebookEvaluation s now notebookId notebookData in
  ((∀ r : Row, r ∈ Notebooks s → r !!! "idcad" ≠ VNum notebookId) →
   answer = (s, inl {| status := 404;
                       name := "NOTEBOOK_NOT_FOUND";
                       message := "Notebook with id " +:+ number_toString notebookId
                                    +:+ " not found" |}))
  ∧ ((∃ r : Row, r ∈ Notebooks s ∧ r !!! "idcad" = VNum notebookId) →
     (∀ r : Row, r ∈ Notebooks s → ¬ evaluable notebookId r) →
     answer = (s, inl {| status := 400;
                         name := "NOTEBOOK_ALREADY_EVALUATED_ERROR";
                         message := "Notebook with id " +:+ number_toString notebookId
                                      +:+ " already evaulated" |}))
  ∧ ((∃ r : Row, r ∈ Notebooks s ∧ evaluable notebookId r) →
     ∃ s' evaluated,
       saveNotebookEvaluation s now notebookId notebookData = (s', Some evaluated)
       ∧ answer = (s', inr evaluated)).
Proof.
  intros answer. subst answer. unfold NotebookAPI.saveNotebookEvaluation.
  split; [|split].
  - intros Hno.
    destruct (getNotebookById s notebookId) as [e|] eqn:He; [|done].
    exfalso. destruct (proj1 (getNotebookById_is_Some s notebookId))
      as (r & Hr & Hid); [by rewrite He|]. by apply (Hno r).
  - intros Hex Hno.
    destruct (proj2 (getNotebookById_is_Some s notebookId) Hex) as [e ->].
    by rewrite (evaluate_rejected s now notebookId notebookData Hno).
  - intros Hex.
    assert (∃ r : Row, r ∈ Notebooks s ∧ r !!! "idcad" = VNum notebookId) as Hid.
    { destruct Hex as (r & Hr & Hc & _). eauto. }
    destruct (proj2 (getNotebookById_is_Some s notebookId) Hid) as [e ->].
    apply (evaluate_is_Some s now notebookId notebookData) in Hex.
    destruct (saveNotebookEvaluation s now notebookId notebookData)
      as [s' [evaluated|]]; [|by destruct Hex].
    by exists s', evaluated.
Qed.

(** X13.  In every state reached from the one notebooks are created in, a
    notebook with neither a reservation date nor an evaluation date carries
    no volunteer. *)
Theorem reachable_available_unassigned s ops :
  initial s → available_unassigned (run s ops).
Proof.
  intros Hinv%initial_available_unassigned.
  revert s Hinv. induction ops as [|[now o] ops IH]; intros s Hinv; [done|].
  rewrite run_cons. by apply IH, step_available_unassigned.
Qed.

Lemma filter_all {A} (P : A → Prop) `{!∀ x, Decision (P x)} (l : list A) :
  Forall P l → filter P l = l.
Proof.
  induction 1 as [|x l Hx Hl IH]; [done|].
  by rewrite filter_cons, decide_True, IH.
Qed.

Lemma filter_none {A} (P : A → Prop) `{!∀ x, Decision (P x)} (l : list A) :
  Forall (λ x, ¬ P x) l → filter P l = [].
Proof.
  induction 1 as [|x l Hx Hl IH]; [done|].
  by rewrite filter_cons, decide_False, IH.
Qed.

(** X14.  While every notebook is as it was created, unreserved and
    unevaluated, [getAvailableNotebooks] returns all of them, in the order
    of the table, and for every volunteer the number of evaluated notebooks
    is 0 and [getReservedNotebooksByIdVol] returns nothing. *)
Theorem initial_listing s :
  initial s →
  NotebookEntity.idcad <$> getAvailableNotebooks s
  = (λ r : Row, r !!! "idcad") <$> Notebooks s
  ∧ (∀ idvol, countEvaluatedNotebooksByIdVol s idvol = 0%nat
              ∧ getReservedNotebooksByIdVol s idvol = []).
Proof.
  intros Hinit. split; [|intros idvol; split].
  - rewrite getAvailableNotebooks_ids. unfold findAll. rewrite filter_all; [done|].
    eapply Forall_impl; [exact Hinit|]. intros r (_ & Hres & Hev). simpl.
    by apply matches_where_available.
  - unfold countEvaluatedNotebooksByIdVol, count, findAll. rewrite filter_none; [done|].
    eapply Forall_impl; [exact Hinit|]. intros r (_ & _ & Hev). simpl.
    rewrite matches_where_evaluated_by. by intros [_ Hne].
  - by apply getReservedNotebooksByIdVol_nil, initial_available_unassigned.
Qed.

End FurtherFacts.

(** ** The volunteer controller: login *)

Section LoginFacts.
Variable getVolunteerWithAuthDataByEmail : string → option Row.
Variable getPermissionByAuthName : Value → option PermissionEntity.
Variable checkPlainWithHash : string → Value → bool.
Variable sign : Row → string.

Lemma login_volunteer_lookup (volunteerWithAuth : Row) k :
  UnsecuredVolunteerAPI.login_volunteer volunteerWithAuth !! k
  = if decide (k ∈ [ "bookPermission"; "certificationPermission"; "password";
                     "readPermission" ])
    then None else volunteerWithAuth !! k.
Proof.
  unfold UnsecuredVolunteerAPI.login_volunteer. rewrite !lookup_delete.
  destruct (decide (k ∈ _)) as [Hin|Hnin].
  - repeat (apply elem_of_cons in Hin as [->|Hin]);
      [ | | | |by apply elem_of_nil in Hin]; repeat (case_decide; [done|]); done.
  - rewrite !decide_False; [done|..]; intros <-; apply Hnin;
      repeat (first [ by left | right ]).
Qed.

(** X16.  What [login] gives out on success never holds the stored password
    hash: the volunteer it returns has no [password] property and none of
    the three permission flags, and is the stored one in every other
    property; the token signs a payload that holds a [password] only if the
    author's permission object has one, and in which a permission flag that
    the permission object does not set is [true] when the stored flag is
    truthy and [undefined] otherwise. *)
Theorem login_keeps_password email password token (volunteer : Row) :
  UnsecuredVolunteerAPI.login getVolunteerWithAuthDataByEmail
    getPermissionByAuthName checkPlainWithHash sign email password
  = inr (token, volunteer) →
  ∃ stored : Row,
    getVolunteerWithAuthDataByEmail email = Some stored
    ∧ checkPlainWithHash password (stored !!! "password") = true
    ∧ volunteer !! "password" = None
    ∧ volunteer !! "bookPermission" = None
    ∧ volunteer !! "certificationPermission" = None
    ∧ volunteer !! "readPermission" = None
    ∧ (∀ k, k ∉ [ "bookPermission"; "certificationPermission"; "password";
                  "readPermission" ] →
         volunteer !! k = stored !! k)
    ∧ let payload :=
        UnsecuredVolunteerAPI.login_payload getPermissionByAuthName stored in
      let granted :=
        from_option permissions ∅
          (UnsecuredVolunteerAPI.login_permissions getPermissionByAuthName stored) in
      token = sign payload
      ∧ payload !! "password" = granted !! "password"
      ∧ (∀ f, f ∈ [ "bookPermission"; "certificationPermission"; "readPermission" ] →
           granted !! f = None →
           payload !!! f = if truthy (stored !!! f) then VBool true else VUndefined).
Proof.
  unfold UnsecuredVolunteerAPI.login.
  destruct (getVolunteerWithAuthDataByEmail email) as [stored|]; [|done].
  destruct (checkPlainWithHash password (stored !!! "password")) eqn:Hcheck; [|done].
  intros [= <- <-]. exists stored.
  split; [done|]. split; [done|].
  split; [by rewrite login_volunteer_lookup|].
  split; [by rewrite login_volunteer_lookup|].
  split; [by rewrite login_volunteer_lookup|].
  split; [by rewrite login_volunteer_lookup|].
  split; [intros k Hk; by rewrite login_volunteer_lookup, decide_False|].
  cbv zeta. split; [done|]. unfold UnsecuredVolunteerAPI.login_payload.
  set (granted := from_option permissions ∅ _).
  split.
  - rewrite lookup_union. rewrite !lookup_insert_ne by done.
    rewrite lookup_singleton_ne by done. by destruct (granted !! "password").
  - intros f Hf Hnone. rewrite lookup_total_alt, lookup_union, Hnone.
    repeat (apply elem_of_cons in Hf as [->|Hf]); [| | |by apply elem_of_nil in Hf].
    + rewrite !(lookup_insert_ne _ _ "bookPermission") by done.
      rewrite lookup_insert_eq. simpl. done.
    + rewrite !(lookup_insert_ne _ _ "certificationPermission") by done.
      rewrite lookup_insert_eq. simpl. done.
    + rewrite !(lookup_insert_ne _ _ "readPermission") by done.
      rewrite lookup_singleton_eq. simpl. done.
Qed.

End LoginFacts.

(** ** The operations on concrete databases *)

#[local] Existing Instance example_runtime.

Example claim_available :
  let (s', result) := reserveNotebookForVolunteer store_mixed 100 7 1 in
  lifecycle <$> Notebooks s'
  = [ (VNum 1, VNum 7, VDate 100, VNull);
      (VNum 2, VNum 7, VDate 50, VNull);
      (VNum 3, VNum 9, VDate 40, VDate 60) ]
  ∧ NotebookEntity.idvol <$> result = Some (VNum 7)
  ∧ NotebookEntity.reservationDate <$> result = Some (VDate 100)
  ∧ NotebookEntity.evaluatorName <$> result = Some (VStr "Bia")
  ∧ NotebookEntity.notebookDirectory <$> result = Some (VStr "dir-3").
Proof. vm_compute. repeat split. Qed.

Example claim_reserved :
  let (s', result) := reserveNotebookForVolunteer store_mixed 100 9 2 in
  lifecycle <$> Notebooks s' = lifecycle <$> Notebooks store_mixed
  ∧ NotebookEntity.idcad <$> result = None.
Proof. vm_compute. repeat split. Qed.

Example evaluate_reserved :
  let (s', result) :=
    saveNotebookEvaluation store_mixed 100 2 (example_evaluation 7 true) in
  (λ r : Row, (lifecycle r, r !!! col_exclusion)) <$> Notebooks s'
  = [ (VNum 1, VNull, VNull, VNull, VNull);
      (VNum 2, VNum 7, VDate 50, VDate 100, VStr "SIM");
      (VNum 3, VNum 9, VDate 40, VDate 60, VNull) ]
  ∧ NotebookEntity.archivesExclusion <$> result = Some true
  ∧ NotebookEntity.conclusion <$> result = Some (VStr "Good").
Proof. vm_compute. repeat split. Qed.

Example count_evaluated :
  countEvaluatedNotebooksByIdVol store_mixed 9 = 1%nat
  ∧ countEvaluatedNotebooksByIdVol store_mixed 7 = 0%nat.
Proof. vm_compute. repeat split. Qed.

(** Notebook 1 of [store_mixed] is claimed by volunteer 7 at time 100. *)
Lemma reserveNotebookForVolunteer_spec_witness :
  (reserveNotebookForVolunteer store_mixed 100 7 1).2
  = Some (notebookModelToEntity
            {| attrs := <[ "idvol" := VNum 7 ]>
                          (<[ "datareserva" := VDate 100 ]>
                             (notebook_row 1 VNull VNull VNull));
               volunteer :=
                 include_volunteer (Volunteers store_mixed)
                   (<[ "idvol" := VNum 7 ]>
                      (<[ "datareserva" := VDate 100 ]>
                         (notebook_row 1 VNull VNull VNull)));
               pep :=
                 include_pep (Peps store_mixed)
                   (<[ "idvol" := VNum 7 ]>
                      (<[ "datareserva" := VDate 100 ]>
                         (notebook_row 1 VNull VNull VNull))) |}).
Proof.
  pose proof (reserveNotebookForVolunteer_spec store_mixed 100 7 1)
    as Hspec.
  cbv zeta in Hspec.
  destruct (reserveNotebookForVolunteer store_mixed 100 7 1)
    as [s' result].
  destruct Hspec as (_ & _ & _ & _ & _ & Hrow & _).
  apply Hrow; by_evaluation.
Defined.

(** Notebook 2 of [store_mixed] is evaluated at time 100: what was sent is
    what the notebook returned holds. *)
Lemma saveNotebookEvaluation_spec_witness :
  let result :=
    (saveNotebookEvaluation store_mixed 100 2 (example_evaluation 7 true)).2 in
  NotebookEntity.evaluatedDate <$> result = Some (VDate 100)
  ∧ NotebookEntity.conclusion <$> result = Some (VStr "Good")
  ∧ NotebookEntity.subject3 <$> result = Some (VStr "t3")
  ∧ NotebookEntity.a13 <$> result = Some (VStr "r13")
  ∧ NotebookEntity.idvol <$> result = Some (VNum 7)
  ∧ NotebookEntity.idcad <$> result = Some (VNum 2)
  ∧ NotebookEntity.reservationDate <$> result = Some (VDate 50).
Proof.
  pose proof (saveNotebookEvaluation_spec store_mixed 100 2
                (example_evaluation 7 true)) as Hspec.
  cbv zeta in Hspec |- *.
  destruct (saveNotebookEvaluation store_mixed 100 2
              (example_evaluation 7 true)) as [s' result].
  destruct Hspec as (_ & _ & Hcols & Hkept & _ & _ & _ & Hrow & _).
  cbn [snd].
  rewrite (Hrow ltac:(by_evaluation) (notebook_row 2 (VNum 7) (VDate 50) VNull)
             ltac:(by_evaluation) ltac:(by_evaluation)).
  cbn [fmap option_fmap option_map notebookModelToEntity attrs
       NotebookEntity.evaluatedDate NotebookEntity.conclusion NotebookEntity.subject3
       NotebookEntity.a13 NotebookEntity.idvol NotebookEntity.idcad
       NotebookEntity.reservationDate].
  unfold col_evaluatedAt.
  rewrite !lookup_total_alt, !(Hkept _ "idcad"), !(Hkept _ "datareserva")
    by by_evaluation.
  rewrite <- !lookup_total_alt.
  destruct (Hcols (notebook_row 2 (VNum 7) (VDate 50) VNull))
    as (Hdate & _ & Hidvol & _ & _ & _ & Ht3 & _ & _ & _ & _ & _ & _ & _ & _
        & _ & _ & _ & _ & _ & _ & _ & _ & _ & _ & _ & _ & Ha13 & Hconclusion).
  rewrite Hdate, Hidvol, Ht3, Ha13, Hconclusion.
  repeat split; by_evaluation.
Defined.

(** Notebook 3 of [store_mixed] is evaluated. *)
Lemma evaluated_is_terminal_witness :
  reserveNotebookForVolunteer store_mixed 100 7 3 = (store_mixed, None)
  ∧ saveNotebookEvaluation store_mixed 100 3 (example_evaluation 7 false)
    = (store_mixed, None).
Proof.
  apply (evaluated_is_terminal store_mixed 100 3 7
           (example_evaluation 7 false)).
  by_evaluation.
Defined.

(** Notebook 2 of [store_mixed], reserved by volunteer 7, through a rejected
    claim and an evaluation sent by volunteer 9. *)
Lemma reservation_after_run_witness :
  ∃ r' : Row,
    Notebooks (run store_mixed
                 [ (100, Claim 9 2); (110, Evaluate 2 (example_evaluation 9 false)) ])
      !! 1%nat = Some r'
    ∧ r' !!! "datareserva" = notebook_row 2 (VNum 7) (VDate 50) VNull !!! "datareserva"
    ∧ (r' !!! "idvol" = notebook_row 2 (VNum 7) (VDate 50) VNull !!! "idvol"
       ∨ ∃ now n data,
           (now, Evaluate n data)
             ∈ [ (100, Claim 9 2); (110, Evaluate 2 (example_evaluation 9 false)) ]
           ∧ notebook_row 2 (VNum 7) (VDate 50) VNull !!! "idcad" = VNum n
           ∧ r' !!! "idvol" = EvaluateNotebookEntity.idvol data).
Proof.
  apply (reservation_after_run store_mixed
           [ (100, Claim 9 2); (110, Evaluate 2 (example_evaluation 9 false)) ]
           1%nat (notebook_row 2 (VNum 7) (VDate 50) VNull)).
  - reflexivity.
  - by_evaluation.
Defined.

(** C3, as stated, fails: notebook 2 is reserved by volunteer 7, and after a
    successful evaluation sent with [idvol = 9] it belongs to volunteer 9. *)
Lemma evaluate_reassigns_volunteer :
  let (s', result) :=
    saveNotebookEvaluation store_mixed 100 2 (example_evaluation 9 false) in
  lifecycle <$> Notebooks store_mixed !! 1%nat = Some (VNum 2, VNum 7, VDate 50, VNull)
  ∧ lifecycle <$> Notebooks s' !! 1%nat = Some (VNum 2, VNum 9, VDate 50, VDate 100)
  ∧ NotebookEntity.idcad <$> result = Some (VNum 2)
  ∧ NotebookEntity.idvol <$> result = Some (VNum 9).
Proof. vm_compute. repeat split. Qed.

(** Notebook 1 of [store_new] is claimed by volunteer 7, evaluated with
    [idvol = 9], and claimed again in vain. *)
Lemma evaluated_origin_witness :
  ∃ ops1 now n data ops2 (r0 : Row),
    [ (100, Claim 7 1); (110, Evaluate 1 (example_evaluation 9 true)); (120, Claim 9 1) ]
    = ops1 ++ (now, Evaluate n data) :: ops2
    ∧ Notebooks (run store_new ops1) !! 0%nat = Some r0
    ∧ evaluable n r0
    ∧ assign (evaluateNotebookEntityToEvaluateNotebookModel 110 (example_evaluation 9 true))
        (notebook_row 1 (VNum 7) (VDate 100) VNull)
      = assign (evaluateNotebookEntityToEvaluateNotebookModel now data) r0
    ∧ assign (evaluateNotebookEntityToEvaluateNotebookModel 110 (example_evaluation 9 true))
        (notebook_row 1 (VNum 7) (VDate 100) VNull) !!! col_evaluatedAt = VDate now
    ∧ assign (evaluateNotebookEntityToEvaluateNotebookModel 110 (example_evaluation 9 true))
        (notebook_row 1 (VNum 7) (VDate 100) VNull) !!! "datareserva"
      = r0 !!! "datareserva"
    ∧ (EvaluateNotebookEntity.idvol data ≠ VUndefined →
       assign (evaluateNotebookEntityToEvaluateNotebookModel 110 (example_evaluation 9 true))
         (notebook_row 1 (VNum 7) (VDate 100) VNull) !!! "idvol"
       = EvaluateNotebookEntity.idvol data).
Proof.
  apply (evaluated_origin store_new
           [ (100, Claim 7 1); (110, Evaluate 1 (example_evaluation 9 true)); (120, Claim 9 1) ]
           0%nat); by_evaluation.
Defined.

(** C4, as stated, fails: notebook 1 starts unreserved and unevaluated, an
    evaluation of it succeeds, through the repository and through the
    controller alike, and leaves it with an evaluation date and no
    reservation date. *)
Lemma evaluate_without_reservation :
  lifecycle <$> Notebooks store_new = [ (VNum 1, VNull, VNull, VNull) ]
  ∧ lifecycle
      <$> Notebooks (run store_new
                       [ (100, Evaluate 1 (example_evaluation 9 true)) ])
    = [ (VNum 1, VNum 9, VNull, VDate 100) ]
  ∧ (let (s', result) :=
       NotebookAPI.saveNotebookEvaluation store_new 100 1
         (example_evaluation 9 true) in
     lifecycle <$> Notebooks s' = [ (VNum 1, VNum 9, VNull, VDate 100) ]
     ∧ match result with
       | inr evaluated =>
           NotebookEntity.reservationDate evaluated = VNull
           ∧ NotebookEntity.evaluatedDate evaluated = VDate 100
       | inl _ => False
       end).
Proof. vm_compute. repeat split. Qed.

(** C6.  After volunteer 7 has claimed notebook 1, which is not evaluated,
    the list of the notebooks reserved by volunteer 7 is empty. *)
Theorem getReservedNotebooksByIdVol_misses_claimed :
  let (s', claimed) :=
    reserveNotebookForVolunteer store_mixed 100 7 1 in
  NotebookEntity.idcad <$> claimed = Some (VNum 1)
  ∧ NotebookEntity.idvol <$> claimed = Some (VNum 7)
  ∧ NotebookEntity.evaluatedDate <$> claimed = Some VNull
  ∧ getReservedNotebooksByIdVol s' 7 = [].
Proof. vm_compute. repeat split. Qed.

(** Volunteer 9 asks for notebook 2 of [store_mixed], which volunteer 7 has
    reserved. *)
Lemma reserve_controller_witness :
  NotebookAPI.reserveNotebookForVolunteer NotebookEntity.t id
    Row lookup_volunteer store_mixed 100 9 2
  = (store_mixed,
     inl {| status := 400;
            name := "NOTEBOOK_ALREADY_RESERVED_ERROR";
            message := "Notebook already reserved or already evaluated" |}).
Proof.
  apply (reserve_controller NotebookEntity.t id Row lookup_volunteer
           store_mixed 100 9 2).
  - by_evaluation.
  - exists (notebook_row 2 (VNum 7) (VDate 50) VNull). split; by_evaluation.
  - apply Forall_forall. by_evaluation.
Defined.

Example reserve_controller_answers :
  (NotebookAPI.reserveNotebookForVolunteer NotebookEntity.t id
     Row lookup_volunteer store_mixed 100 8 1).2
  = inl {| status := 412; name := "VOLUNTEER_NOT_FOUND";
           message := "Volunteer with id 8 not found" |}
  ∧ (NotebookAPI.reserveNotebookForVolunteer NotebookEntity.t id
       Row lookup_volunteer store_mixed 100 7 5).2
    = inl {| status := 404; name := "NOTEBOOK_NOT_FOUND";
             message := "Notebook with id 5 not found" |}
  ∧ match (NotebookAPI.reserveNotebookForVolunteer NotebookEntity.t id
             Row lookup_volunteer store_mixed 100 7 1).2 with
    | inr reserved => NotebookEntity.idvol reserved = VNum 7
    | inl _ => False
    end.
Proof. vm_compute. repeat split. Qed.

(** C9.  Notebooks 1 and 2 are as created; volunteer 7 claims notebook 2,
    which is then reserved by 7 and not evaluated.  The controller's list
    for volunteer 7 holds notebook 1 alone: the volunteer's own reservation,
    which should come first, is not in it. *)
Theorem accessible_notebooks_misses_reservation :
  let (s', claimed) := reserveNotebookForVolunteer store_pair 100 7 2 in
  NotebookEntity.idcad <$> claimed = Some (VNum 2)
  ∧ lifecycle <$> Notebooks s'
    = [ (VNum 1, VNull, VNull, VNull); (VNum 2, VNum 7, VDate 100, VNull) ]
  ∧ NotebookEntity.idcad <$> getReservedNotebooksByIdVol s' 7 = []
  ∧ NotebookEntity.idcad <$> getAvailableNotebooks s' = [ VNum 1 ]
  ∧ NotebookEntity.idcad
      <$> NotebookAPI.getAvailableNotebooksForEvalForIdVol NotebookEntity.t id s' 7
    = [ VNum 1 ].
Proof. vm_compute. repeat split. Qed.

(** ** Further operations on concrete databases *)

(** Notebook 3 of [store_mixed] already has an evaluation.  *)
Lemma evaluate_controller_witness :
  NotebookAPI.saveNotebookEvaluation store_mixed 100 3 (example_evaluation 7 false)
  = (store_mixed,
     inl {| status := 400;
            name := "NOTEBOOK_ALREADY_EVALUATED_ERROR";
            message := "Notebook with id 3 already evaulated" |}).
Proof.
  pose proof (evaluate_controller store_mixed 100 3 (example_evaluation 7 false))
    as (_ & Hevaluated & _).
  etransitivity.
  - apply Hevaluated.
    + exists (notebook_row 3 (VNum 9) (VDate 40) (VDate 60)). split; by_evaluation.
    + apply Forall_forall. by_evaluation.
  - reflexivity.
Defined.

(** Notebook 3 of [store_mixed], evaluated, through a claim of notebook 1 and
    an evaluation of notebook 2. *)
Lemma evaluated_row_frozen_witness :
  Notebooks (run store_mixed
               [ (100, Claim 7 1); (110, Evaluate 2 (example_evaluation 7 true)) ])
    !! 2%nat
  = Some (notebook_row 3 (VNum 9) (VDate 40) (VDate 60)).
Proof.
  apply (evaluated_row_frozen store_mixed
           [ (100, Claim 7 1); (110, Evaluate 2 (example_evaluation 7 true)) ]
           2%nat (notebook_row 3 (VNum 9) (VDate 40) (VDate 60))).
  - reflexivity.
  - by_evaluation.
Defined.

(** A claim of notebook 1 and an evaluation of notebook 2 of [store_mixed]. *)
Lemma operations_independent_witness :
  step (step store_mixed 100 (Claim 7 1)) 110 (Evaluate 2 (example_evaluation 7 true))
  = step (step store_mixed 110 (Evaluate 2 (example_evaluation 7 true))) 100 (Claim 7 1)
  ∧ step_result (step store_mixed 100 (Claim 7 1)) 110
      (Evaluate 2 (example_evaluation 7 true))
    = step_result store_mixed 110 (Evaluate 2 (example_evaluation 7 true)).
Proof.
  apply (operations_independent store_mixed 100 (Claim 7 1) 110
           (Evaluate 2 (example_evaluation 7 true))).
  by_evaluation.
Defined.

(** Volunteer 7 evaluates notebook 2 of [store_mixed]. *)
Lemma countEvaluated_after_evaluation_witness :
  countEvaluatedNotebooksByIdVol
    (saveNotebookEvaluation store_mixed 100 2 (example_evaluation 7 true)).1 7
  = S (countEvaluatedNotebooksByIdVol store_mixed 7)
  ∧ (∀ v, v ≠ 7 →
       countEvaluatedNotebooksByIdVol
         (saveNotebookEvaluation store_mixed 100 2 (example_evaluation 7 true)).1 v
       = countEvaluatedNotebooksByIdVol store_mixed v).
Proof.
  apply (countEvaluated_after_evaluation store_mixed 100 2 (example_evaluation 7 true) 7).
  - by_evaluation.
  - reflexivity.
  - by_evaluation.
Defined.

(** Notebook 1 of [store_new] through a claim and an evaluation. *)
Lemma reachable_available_unassigned_witness :
  available_unassigned
    (run store_new
       [ (100, Claim 7 1); (110, Evaluate 1 (example_evaluation 9 true)) ]).
Proof.
  apply (reachable_available_unassigned store_new
           [ (100, Claim 7 1); (110, Evaluate 1 (example_evaluation 9 true)) ]).
  by_evaluation.
Defined.

(** Bia logs in with her password. *)
Lemma login_keeps_password_witness :
  ∃ stored : Row,
    example_directory "bia@example.org" = Some stored
    ∧ example_check "secret" (stored !!! "password") = true
    ∧ UnsecuredVolunteerAPI.login_volunteer example_volunteer_auth !! "password" = None
    ∧ UnsecuredVolunteerAPI.login_volunteer example_volunteer_auth !! "bookPermission"
      = None
    ∧ UnsecuredVolunteerAPI.login_volunteer example_volunteer_auth
        !! "certificationPermission" = None
    ∧ UnsecuredVolunteerAPI.login_volunteer example_volunteer_auth !! "readPermission"
      = None
    ∧ (∀ k, k ∉ [ "bookPermission"; "certificationPermission"; "password";
                  "readPermission" ] →
         UnsecuredVolunteerAPI.login_volunteer example_volunteer_auth !! k
         = stored !! k)
    ∧ let payload :=
        UnsecuredVolunteerAPI.login_payload (λ _, None) stored in
      let granted :=
        from_option permissions ∅
          (UnsecuredVolunteerAPI.login_permissions (λ _, None) stored) in
      "token-for-bia@example.org" = example_sign payload
      ∧ payload !! "password" = granted !! "password"
      ∧ (∀ f, f ∈ [ "bookPermission"; "certificationPermission"; "readPermission" ] →
           granted !! f = None →
           payload !!! f = if truthy (stored !!! f) then VBool true else VUndefined).
Proof.
  apply (login_keeps_password example_directory (λ _, None) example_check example_sign
           "bia@example.org" "secret" "token-for-bia@example.org"
           (UnsecuredVolunteerAPI.login_volunteer example_volunteer_auth)).
  vm_compute. reflexivity.
Defined.

Example login_answers :
  UnsecuredVolunteerAPI.login example_directory (λ _, None) example_check example_sign
    "bia@example.org" "guess"
  = UnsecuredVolunteerAPI.login example_directory (λ _, None) example_check example_sign
      "nobody@example.org" "secret"
  ∧ (UnsecuredVolunteerAPI.login_payload (λ _, None) example_volunteer_auth
       !!! "readPermission",
     UnsecuredVolunteerAPI.login_payload (λ _, None) example_volunteer_auth
       !!! "bookPermission",
     UnsecuredVolunteerAPI.login_payload (λ _, None) example_volunteer_auth
       !!! "idvol")
    = (VBool true, VUndefined, VNum 7).
Proof. vm_compute. repeat split. Qed.

(** [store_new] is as created. *)
Lemma initial_listing_witness :
  NotebookEntity.idcad <$> getAvailableNotebooks store_new
  = (λ r : Row, r !!! "idcad") <$> Notebooks store_new
  ∧ (∀ idvol, countEvaluatedNotebooksByIdVol store_new idvol = 0%nat
              ∧ getReservedNotebooksByIdVol store_new idvol = []).
Proof.
  apply (initial_listing store_new). by_evaluation.
Defined.
